(** * The tritium-desorption notebook ([demo.ipynb]) as an effectful program

    The repository is one Jupyter notebook.  Its code cells, executed in
    document order, load three CSV files with pandas, drive the twinLab
    cloud service (upload, list, summarise, train, predict, delete) and
    render two figures with matplotlib.  None of pandas, twinLab or
    matplotlib is part of the repository, so every call into them is an
    _effect_ whose answer is chosen by the environment; what the notebook
    owns is the order of the calls, the arguments it passes, and the
    (absent) handling of failures.

    The embedding follows that reading:
    - [Call T] is the signature of the library calls the notebook makes,
      indexed by the type of their answer;
    - [Prog A] is a program over that signature (a finite tree: every loop
      of the notebook ranges over a literal or over [range (len ...)]);
    - a [Handler] is an environment: it answers each call, knowing the
      history, with a value or with a raised exception;
    - [run] executes a program against a handler and records the trace.

    An execution is the cells run from top to bottom, stopping at the
    first exception (the notebook catches none).  Import statements, the
    expression statement [df_train.shape] and the [verbose] keyword of the
    twinLab calls have no counterpart here.  Numbers are pandas/numpy
    floats; their arithmetic is a parameter ([Number]) of the whole
    development. *)

From Stdlib Require Import List String Ascii Bool Arith ZArith QArith Qminmax Lia.
From Stdlib Require Import DecimalString DecimalNat FinFun.
Import ListNotations.
Local Open Scope string_scope.
Local Open Scope list_scope.
Local Open Scope nat_scope.

Set Implicit Arguments.

(* ================================================================== *)
(** * Python strings and paths *)

(** [str(i)] for a non-negative integer, as used by the f-string
    [f"y{i}"]. *)
Definition str_of_nat (n : nat) : string :=
  NilEmpty.string_of_uint (Nat.to_uint n).

(** [s.startswith(c)] and [s.endswith(c)] for a one-character [c] that
    ranges over a set of separators. *)
Definition starts_with_any (seps : list ascii) (s : string) : bool :=
  match s with
  | EmptyString => false
  | String c _ => existsb (Ascii.eqb c) seps
  end.

Fixpoint ends_with_any (seps : list ascii) (s : string) : bool :=
  match s with
  | EmptyString => false
  | String c EmptyString => existsb (Ascii.eqb c) seps
  | String _ rest => ends_with_any seps rest
  end.

(** The two flavours of [os.path]. *)
Inductive Platform := Posix | Nt.

Definition sep (os : Platform) : string :=
  match os with Posix => "/" | Nt => "\" end.

Definition seps (os : Platform) : list ascii :=
  match os with
  | Posix => ["/"%char]
  | Nt => ["\"%char; "/"%char]
  end.

(** [os.path.join(a, *p)].  [posixpath.join]: a component that starts with
    the separator replaces what was joined so far; otherwise it is
    appended, after a separator unless the path so far is empty or already
    ends with one.  [ntpath.join] does the same with both ["\"] and ["/"]
    recognised and ["\"] inserted, for components without a drive or UNC
    prefix; none of the notebook's components has one, and drives are not
    modelled. *)
Definition join_step (os : Platform) (path b : string) : string :=
  if starts_with_any (seps os) b then b
  else if (String.eqb path "" || ends_with_any (seps os) path)%bool
       then path ++ b
       else path ++ sep os ++ b.

Definition os_path_join (os : Platform) (a : string) (p : list string)
  : string :=
  fold_left (join_step os) p a.

(* ================================================================== *)
(** * Numbers, series and tables *)

(** The floating-point numbers held in pandas columns and passed to
    matplotlib.  The notebook only moves them around and combines them
    with [+ - * /], [min] and [max]; everything proved below holds for any
    interpretation of these operations. *)
Class Number (V : Type) := {
  of_Q : Q -> V;                  (* a numeric literal *)
  nan : V;                        (* a missing cell *)
  vadd : V -> V -> V;
  vsub : V -> V -> V;
  vmul : V -> V -> V;
  vdiv : V -> V -> V;
  vmin : list V -> V;             (* Series.min() *)
  vmax : list V -> V              (* Series.max() *)
}.

(** A column label: a header name, or a position when the file was read
    with [header=None]. *)
Inductive Label := Name (s : string) | Pos (n : nat).

Definition label_eqb (a b : Label) : bool :=
  match a, b with
  | Name s, Name t => String.eqb s t
  | Pos n, Pos m => Nat.eqb n m
  | _, _ => false
  end.

(** What an unhandled Python exception carries, as far as the notebook can
    tell them apart. *)
Inductive Exc :=
| KeyError (key : Label)
| IndexError
| LibraryError (msg : string).

Section Notebook.

Context {V : Type} {num : Number V}.

Definition Series := list V.

Record DataFrame := { columns : list Label; rows : list (list V) }.

(** [len(df)] *)
Definition len (df : DataFrame) : nat := List.length (rows df).

(** [df.iloc[:n, :]]: the first [n] rows (all of them when there are
    fewer), every column. *)
Definition iloc_head (n : nat) (df : DataFrame) : DataFrame :=
  {| columns := columns df; rows := firstn n (rows df) |}.

(** Position of a label among the columns. *)
Fixpoint get_loc (l : Label) (cols : list Label) : option nat :=
  match cols with
  | [] => None
  | c :: cs => if label_eqb c l then Some 0
               else option_map S (get_loc l cs)
  end.

Definition column_at (i : nat) (df : DataFrame) : Series :=
  map (fun r => nth i r nan) (rows df).

(** [df[name]]: the column, or [KeyError]. *)
Definition getitem (df : DataFrame) (l : Label) : Exc + Series :=
  match get_loc l (columns df) with
  | Some i => inr (column_at i df)
  | None => inl (KeyError l)
  end.

(** [df[names]]: the sub-table with these columns in this order, or
    [KeyError] for the first name that is not a column. *)
Fixpoint locate (cols : list Label) (names : list Label)
  : Exc + list nat :=
  match names with
  | [] => inr []
  | l :: ls =>
      match get_loc l cols with
      | None => inl (KeyError l)
      | Some i => match locate cols ls with
                  | inl e => inl e
                  | inr js => inr (i :: js)
                  end
      end
  end.

Definition getitems (df : DataFrame) (names : list Label)
  : Exc + DataFrame :=
  match locate (columns df) names with
  | inl e => inl e
  | inr js => inr {| columns := names;
                     rows := map (fun r => map (fun i => nth i r nan) js)
                                 (rows df) |}
  end.

(** [df.iloc[i]]: row [i] as a series, or [IndexError]. *)
Definition iloc_row (df : DataFrame) (i : nat) : Exc + Series :=
  match nth_error (rows df) i with
  | Some r => inr r
  | None => inl IndexError
  end.

(** [df.iloc[:, j]]: column [j] as a series, or [IndexError]. *)
Definition iloc_col (df : DataFrame) (j : nat) : Exc + Series :=
  if j <? List.length (columns df) then inr (column_at j df)
  else inl IndexError.

(** Element-wise arithmetic of a series with a scalar and of two series
    that carry the same index. *)
Definition sdiv (s : Series) (k : V) : Series := map (fun v => vdiv v k) s.
Definition smul (k : V) (s : Series) : Series := map (fun v => vmul k v) s.
Definition ssub (a b : Series) : Series :=
  map (fun p => vsub (fst p) (snd p)) (combine a b).
Definition sadd (a b : Series) : Series :=
  map (fun p => vadd (fst p) (snd p)) (combine a b).

Definition of_Z (z : Z) : V := of_Q (inject_Z z).

(* ================================================================== *)
(** * twinLab handles *)

(** [tl.Dataset(id)], [tl.Emulator(id)], [tl.TrainParams(...)]: local
    objects; constructing one contacts nothing. *)
Record Dataset := { dataset_handle_id : string }.
Record Emulator := { emulator_handle_id : string }.
Record TrainParams := {
  output_explained_variance : V;
  train_test_ratio : V
}.

(* ================================================================== *)
(** * The calls the notebook makes *)

(** [matplotlib.pyplot] functions, with the arguments that carry data or
    text.  Purely cosmetic keywords ([figsize], [marker], [lw], [ls]) are
    not recorded. *)
Inductive PltCall :=
| subplots (grid : option (nat * nat))
| subplot (nrow ncol index : nat)
| errorbar (x y yerr : Series) (color : string) (alpha : V)
           (label : option string)
| plot (x y : Series) (fmt : option string) (color : string) (alpha : V)
       (label : option string)
| fill_between (x y1 y2 : Series) (color : string) (alpha : V)
               (label : option string)
| xlabel (s : string)
| ylabel (s : string)
| xlim (lo hi : V)
| ylim_bottom (lo : V)
| legend
| show.

Inductive Call : Type -> Type :=
| pd_read_csv (path : string) (header : bool) : Call DataFrame
| display (df : DataFrame) : Call unit
| Dataset_upload (d : Dataset) (df : DataFrame) : Call unit
| tl_list_datasets : Call (list string)
| Dataset_summarise (d : Dataset) : Call string
| datetime_now : Call Z
| Emulator_train (e : Emulator) (d : Dataset) (inputs outputs : list string)
                 (params : TrainParams) : Call unit
| print_format (fmt : string) (arg : Z) : Call unit
| tl_list_emulators : Call (list string)
| Emulator_summarise (e : Emulator) : Call string
| Emulator_predict (e : Emulator) (df : DataFrame)
  : Call (DataFrame * DataFrame)
| plt (p : PltCall) : Call unit
| tl_get_blur_alpha (n : nat) (alpha : V) : Call V
| tl_get_blur_boundaries (n : nat) : Call Series
| Emulator_delete (e : Emulator) : Call unit
| Dataset_delete (d : Dataset) : Call unit.

(** One step of an execution: the call and how it ended. *)
Inductive Event := Ev (T : Type) (c : Call T) (r : Exc + T).

Definition Trace := list Event.

(** The environment: pandas, the file system, the twinLab service, the
    clock and matplotlib.  It sees the history, so it may be stateful, and
    it may make any call raise. *)
Definition Handler := forall T : Type, Trace -> Call T -> Exc + T.

(* ================================================================== *)
(** * Programs *)

(** A program either finishes with a value, dies on an exception raised by
    its own code, or makes a call and continues with the answer.  There is
    no construct that catches an exception: the notebook has no [try]. *)
Inductive Prog (A : Type) : Type :=
| Ret (a : A)
| Raise (e : Exc)
| Do (T : Type) (c : Call T) (k : T -> Prog A).

Arguments Raise {A} e.

Fixpoint bind {A B} (p : Prog A) (f : A -> Prog B) : Prog B :=
  match p with
  | Ret a => f a
  | Raise e => Raise e
  | Do c k => Do c (fun r => bind (k r) f)
  end.

Definition call {T} (c : Call T) : Prog T := Do c (fun r => Ret r).

(** A Python expression that may raise. *)
Definition lift {A} (x : Exc + A) : Prog A :=
  match x with inl e => Raise e | inr a => Ret a end.

Inductive Outcome (A : Type) := Done (a : A) | Raised (e : Exc).
Arguments Raised {A} e.

Fixpoint run {A} (h : Handler) (p : Prog A) (t : Trace)
  : Trace * Outcome A :=
  match p with
  | Ret a => (t, Done a)
  | Raise e => (t, Raised e)
  | Do c k =>
      match h _ t c with
      | inl e => (t ++ [Ev c (inl e)], Raised e)
      | inr r => run h (k r) (t ++ [Ev c (inr r)])
      end
  end.

Notation "x <- p ;; k" := (bind p (fun x => k))
  (at level 61, p at next level, right associativity).
Notation "p ;;; k" := (bind p (fun _ => k))
  (at level 61, right associativity).

(** [for x in xs: body], with the variables the body updates threaded
    through as [s]. *)
Fixpoint for_each {X S} (xs : list X) (body : X -> S -> Prog S) (s : S)
  : Prog S :=
  match xs with
  | [] => Ret s
  | x :: rest => s' <- body x s ;; for_each rest body s'
  end.

(** [range(n)] and [enumerate(l)] *)
Definition range (n : nat) : list nat := seq 0 n.
Definition enumerate {X} (l : list X) : list (nat * X) :=
  combine (seq 0 (List.length l)) l.

(* ================================================================== *)
(** * The notebook, cell by cell *)

Variable os : Platform.

(** ** Files and file paths; parameters *)
Definition file_train : string :=
  os_path_join os "resources" ["datasets"; "ukaea_big.csv"].
Definition emulator_dir : string :=
  os_path_join os "resources" ["campaigns"; "ukaea"].
Definition file_grid : string := os_path_join os emulator_dir ["grid.csv"].
Definition file_eval : string := os_path_join os emulator_dir ["test.csv"].

Definition dataset_id : string := "tritium_desorption".

(** ** Load the data
<<
df_train = pd.read_csv(file_train).iloc[:1000,:]
df_eval = pd.read_csv(file_eval)
df_grid = pd.read_csv(file_grid, header=None)
df_train.shape
display(df_train)
>> *)
Definition cell_load : Prog (DataFrame * DataFrame * DataFrame) :=
  df <- call (pd_read_csv file_train true) ;;
  let df_train := iloc_head 1000 df in
  df_eval <- call (pd_read_csv file_eval true) ;;
  df_grid <- call (pd_read_csv file_grid false) ;;
  call (display df_train) ;;;
  Ret (df_train, df_eval, df_grid).

(** ** Upload, list, summarise
<<
dataset = tl.Dataset(dataset_id)
dataset.upload(df_train, verbose=True)
_ = tl.list_datasets(verbose=True)
_ = dataset.summarise(verbose=True)
>> *)
Definition cell_upload (df_train : DataFrame) : Prog Dataset :=
  let dataset := {| dataset_handle_id := dataset_id |} in
  call (Dataset_upload dataset df_train) ;;;
  Ret dataset.

Definition cell_list_datasets : Prog unit :=
  call tl_list_datasets ;;; Ret tt.

Definition cell_summarise_dataset (dataset : Dataset) : Prog unit :=
  call (Dataset_summarise dataset) ;;; Ret tt.

(** ** Declared columns
<<
inputs = ["E1", "E2", "E3", "n1", "n2"]
outputs = [f"y{i}" for i in range(len(df_grid))]
>> *)
Definition inputs : list string := ["E1"; "E2"; "E3"; "n1"; "n2"].
Definition outputs (df_grid : DataFrame) : list string :=
  map (fun i => ("y" ++ str_of_nat i)%string) (range (len df_grid)).

(** ** Train
<<
emulator_id = dataset_id
params = tl.TrainParams(output_explained_variance=0.9, train_test_ratio=0.5)
emulator = tl.Emulator(emulator_id)
start_time = datetime.now()
emulator.train(dataset, inputs, outputs, params, verbose=True)
end_time = datetime.now()
print('Duration: {}'.format(end_time - start_time))
>> *)
Definition emulator_id : string := dataset_id.

Definition params : TrainParams :=
  {| output_explained_variance := of_Q (9 # 10);
     train_test_ratio := of_Q (1 # 2) |}.

Definition cell_train (dataset : Dataset) (df_grid : DataFrame)
  : Prog Emulator :=
  let emulator := {| emulator_handle_id := emulator_id |} in
  start_time <- call datetime_now ;;
  call (Emulator_train emulator dataset inputs (outputs df_grid) params) ;;;
  end_time <- call datetime_now ;;
  call (print_format "Duration: {}" (end_time - start_time)%Z) ;;;
  Ret emulator.

(** ** List, summarise, predict
<<
_ = tl.list_emulators(verbose=True)
_ = emulator.summarise(verbose=False)
df_mean, df_std = emulator.predict(df_eval, verbose=False)
display(df_mean)
display(df_std)
>> *)
Definition cell_list_emulators : Prog unit :=
  call tl_list_emulators ;;; Ret tt.

Definition cell_summarise_emulator (emulator : Emulator) : Prog unit :=
  call (Emulator_summarise emulator) ;;; Ret tt.

Definition cell_predict (emulator : Emulator) (df_eval : DataFrame)
  : Prog (DataFrame * DataFrame) :=
  r <- call (Emulator_predict emulator df_eval) ;;
  let (df_mean, df_std) := r in
  call (display df_mean) ;;;
  call (display df_std) ;;;
  Ret (df_mean, df_std).

(** ** First figure: a few outputs against each input *)
Definition xs : list (string * string) :=
  [("E1", "$E_{1}$"); ("E2", "$E_{2}$"); ("E3", "$E_{3}$");
   ("n1", "$n_{1}$"); ("n2", "$n_{2}$")].
Definition ys : list (string * string) :=
  map (fun i => (("y" ++ str_of_nat i)%string,
                 ("$y_{" ++ str_of_nat i ++ "}$")%string))
      [0; 100; 150].

Definition cell_plot_examples (df_train df_eval df_mean df_std : DataFrame)
  : Prog unit :=
  let color := "blue" in
  let alpha := of_Q (8 # 10) in
  let nrow := List.length ys in
  let ncol := List.length xs in
  call (plt (subplots (Some (nrow, ncol)))) ;;;
  for_each ys (fun '(y, y_label) nplot =>
    for_each xs (fun '(x, x_label) nplot =>
      let nplot := nplot + 1 in
      call (plt (subplot nrow ncol nplot)) ;;;
      ex <- lift (getitem df_eval (Name x)) ;;
      my <- lift (getitem df_mean (Name y)) ;;
      sy <- lift (getitem df_std (Name y)) ;;
      call (plt (errorbar ex my sy color alpha (Some "Model"))) ;;;
      tx <- lift (getitem df_train (Name x)) ;;
      ty <- lift (getitem df_train (Name y)) ;;
      call (plt (plot tx ty (Some ".") "black" (of_Q (1 # 10))
                      (Some "Training data"))) ;;;
      call (plt (xlabel x_label)) ;;;
      call (plt (ylabel y_label)) ;;;
      (if nplot =? 1 then call (plt legend) else Ret tt) ;;;
      Ret nplot) nplot) 0 ;;;
  call (plt show).

(** ** Second figure: predicted curves with uncertainty bands *)
Definition error_inflation_factor : V := of_Q 1.
Definition y_fac : Z := 18.
Definition plot_eval : bool := true.
Definition data_alpha : V := of_Q (75 # 100).
Definition plot_model_mean : bool := true.
Definition plot_model_bands : bool := true.
Definition plot_model_blur : bool := false.
Definition nsigs : list Z := [1; 2]%Z.
Definition model_alpha : V := of_Q (1 # 2).
Definition n_model_blur : nat := 100.
Definition model_color : string := "blue".
Definition number_of_training_examples : nat := 0.
Definition number_of_model_examples : nat := 5.

(** [df[outputs].iloc[example]] *)
Definition output_row (df : DataFrame) (outs : list string) (example : nat)
  : Prog Series :=
  sub <- lift (getitems df (map Name outs)) ;;
  lift (iloc_row sub example).

(** The guard of the "Test data" curve:
    [plot_eval and (file_eval == emulator_dir + "test.csv")]. *)
Definition test_data_guard : bool :=
  plot_eval && String.eqb file_eval (emulator_dir ++ "test.csv")%string.

Definition first_label (first : bool) (text : string) : option string :=
  if first then Some text else None.

Definition cell_plot_results
  (df_train df_eval df_grid df_mean df_std : DataFrame) : Prog unit :=
  let outs := outputs df_grid in
  let scale := of_Z (10 ^ y_fac) in
  grid <- lift (iloc_col df_grid 0) ;;
  call (plt (subplots None)) ;;;
  (if (plot_model_blur || plot_model_bands) && negb plot_model_mean
   then call (plt (fill_between grid (map (fun _ => nan) grid)
                     (map (fun _ => nan) grid) model_color model_alpha
                     (Some "Model predictions")))
   else Ret tt) ;;;
  for_each (range number_of_training_examples) (fun example _ =>
    row <- output_row df_train outs example ;;
    let train := sdiv row scale in
    let label := first_label (example =? 0) "Example training data" in
    call (plt (plot grid train None "black" (of_Q (1 # 2)) label))) tt ;;;
  for_each (range number_of_model_examples) (fun example _ =>
    mrow <- output_row df_mean outs example ;;
    let mean := sdiv mrow scale in
    srow <- output_row df_std outs example ;;
    let err := sdiv (smul error_inflation_factor srow) scale in
    (if test_data_guard
     then erow <- output_row df_eval outs example ;;
          let eval := sdiv erow scale in
          let label := first_label (example =? 0) "Test data" in
          call (plt (plot grid eval None "black" data_alpha label))
     else Ret tt) ;;;
    (if plot_model_bands
     then for_each (enumerate nsigs) (fun '(isig, nsig) _ =>
            let label := first_label ((isig =? 0) && (example =? 0))
                                     "Model predictions" in
            let band := smul (of_Z nsig) err in
            call (plt (fill_between grid (ssub mean band) (sadd mean band)
                         model_color
                         (vdiv model_alpha (of_Z (Z.of_nat (isig + 1))))
                         label))) tt
     else Ret tt) ;;;
    (if plot_model_blur && negb plot_model_bands
     then alpha <- call (tl_get_blur_alpha n_model_blur model_alpha) ;;
          dys <- call (tl_get_blur_boundaries n_model_blur) ;;
          for_each (enumerate dys) (fun '(iy, dy) _ =>
            let label := first_label ((iy =? 0) && (example =? 0))
                                     "Model predictions" in
            let band := smul dy err in
            call (plt (fill_between grid (ssub mean band) (sadd mean band)
                         model_color alpha label))) tt
     else Ret tt) ;;;
    (if plot_model_mean
     then let label := first_label ((example =? 0) && negb plot_model_bands
                                    && negb plot_model_blur)
                                   "Model predictions" in
          call (plt (plot grid mean None model_color model_alpha label))
     else Ret tt)) tt ;;;
  call (plt (xlabel "Temperature [K]")) ;;;
  call (plt (xlim (vmin grid) (vmax grid))) ;;;
  call (plt (ylabel ("Desorption rate [$10^{"
                     ++ NilZero.string_of_int (Z.to_int y_fac)
                     ++ "}$ $m^{-2}$ $s^{-1}$]")%string)) ;;;
  call (plt (ylim_bottom (of_Q 0))) ;;;
  call (plt legend) ;;;
  call (plt show).

(** ** Clean up
<<
emulator.delete(verbose=True)
dataset.delete(verbose=True)
>> *)
Definition cell_delete_emulator (emulator : Emulator) : Prog unit :=
  call (Emulator_delete emulator).

Definition cell_delete_dataset (dataset : Dataset) : Prog unit :=
  call (Dataset_delete dataset).

(** ** The whole notebook, cells in document order *)
Definition notebook : Prog unit :=
  loaded <- cell_load ;;
  let '(df_train, df_eval, df_grid) := loaded in
  dataset <- cell_upload df_train ;;
  cell_list_datasets ;;;
  cell_summarise_dataset dataset ;;;
  emulator <- cell_train dataset df_grid ;;
  cell_list_emulators ;;;
  cell_summarise_emulator emulator ;;;
  predicted <- cell_predict emulator df_eval ;;
  let '(df_mean, df_std) := predicted in
  cell_plot_examples df_train df_eval df_mean df_std ;;;
  cell_plot_results df_train df_eval df_grid df_mean df_std ;;;
  cell_delete_emulator emulator ;;;
  cell_delete_dataset dataset.

Definition execute (h : Handler) : Trace * Outcome unit :=
  run h notebook [].

(* ================================================================== *)
(** * Observing a trace *)

(** [omap f l] keeps the images of the elements [f] is defined on. *)
Fixpoint omap {X Y} (f : X -> option Y) (l : list X) : list Y :=
  match l with
  | [] => []
  | x :: rest => match f x with
                 | Some y => y :: omap f rest
                 | None => omap f rest
                 end
  end.

(** [prefix l m]: [l] is an initial segment of [m]. *)
Definition prefix {X} (l m : list X) : Prop := exists rest, m = l ++ rest.

Definition failed (ev : Event) : bool :=
  match ev with Ev _ (inl _) => true | Ev _ (inr _) => false end.

Definition raised_by (ev : Event) : option Exc :=
  match ev with Ev _ (inl e) => Some e | Ev _ (inr _) => None end.

(** The steps of the flow the specification numbers 1 to 8.  Displaying a
    table, reading the clock and printing are not steps of that flow. *)
Definition phase (ev : Event) : option nat :=
  match ev with
  | Ev c _ =>
      match c with
      | pd_read_csv _ _ => Some 1
      | Dataset_upload _ _ => Some 2
      | tl_list_datasets => Some 3
      | Dataset_summarise _ => Some 3
      | Emulator_train _ _ _ _ _ => Some 4
      | tl_list_emulators => Some 5
      | Emulator_summarise _ => Some 5
      | Emulator_predict _ _ => Some 6
      | plt _ => Some 7
      | tl_get_blur_alpha _ _ => Some 7
      | tl_get_blur_boundaries _ => Some 7
      | Emulator_delete _ => Some 8
      | Dataset_delete _ => Some 8
      | display _ => None
      | datetime_now => None
      | print_format _ _ => None
      end
  end.

(** The calls that reach the twinLab service. *)
Inductive RemoteOp :=
| OpUpload | OpListDatasets | OpSummariseDataset | OpTrain
| OpListEmulators | OpSummariseEmulator | OpPredict
| OpDeleteEmulator | OpDeleteDataset.

Definition remote_op (ev : Event) : option RemoteOp :=
  match ev with
  | Ev c _ =>
      match c with
      | Dataset_upload _ _ => Some OpUpload
      | tl_list_datasets => Some OpListDatasets
      | Dataset_summarise _ => Some OpSummariseDataset
      | Emulator_train _ _ _ _ _ => Some OpTrain
      | tl_list_emulators => Some OpListEmulators
      | Emulator_summarise _ => Some OpSummariseEmulator
      | Emulator_predict _ _ => Some OpPredict
      | Emulator_delete _ => Some OpDeleteEmulator
      | Dataset_delete _ => Some OpDeleteDataset
      | _ => None
      end
  end.

(* ================================================================== *)
(** * Reasoning about every execution *)

(** [emits P p]: whatever the environment answers, every call [p] makes
    satisfies [P], however the call ends. *)
Fixpoint emits {A} (P : Event -> Prop) (p : Prog A) : Prop :=
  match p with
  | Ret _ => True
  | Raise _ => True
  | Do c k => (forall r, P (Ev c r)) /\ (forall x, emits P (k x))
  end.

(** [wpo obs p Q l]: started after a history whose observations are [l],
    every execution of [p] ends with observations and outcome related by
    [Q]. *)
Fixpoint wpo {A X} (obs : Event -> option X) (p : Prog A)
  (Q : list X -> Outcome A -> Prop) (l : list X) : Prop :=
  match p with
  | Ret a => Q l (Done a)
  | Raise e => Q l (Raised e)
  | Do c k =>
      (forall e, Q (l ++ omap obs [Ev c (inl e)]) (Raised e)) /\
      (forall r, wpo obs (k r) Q (l ++ omap obs [Ev c (inr r)]))
  end.

End Notebook.

Arguments Raise {V A} e.
Arguments Raised {A} e.


(* ================================================================== *)
(** * What the claims observe *)

Section Observations.

Context {V : Type} {num : Number V}.

(** ** The two figures *)

(** An event that is a [pyplot] call satisfying [P]. *)
Definition plt_event (P : PltCall -> Prop) (ev : @Event V) : Prop :=
  match ev with
  | Ev c _ => match c with plt p => P p | _ => False end
  end.

(** What the first figure may contain. *)
Definition figure1_call (p : @PltCall V) : Prop :=
  match p with
  | subplots g => g = Some (3, 5)
  | subplot r c _ => r = 3 /\ c = 5
  | errorbar _ _ _ _ _ l => l = Some "Model"
  | plot _ _ f c _ l =>
      f = Some "." /\ c = "black" /\ l = Some "Training data"
  | xlabel _ | ylabel _ | legend | show => True
  | fill_between _ _ _ _ _ _ | xlim _ _ | ylim_bottom _ => False
  end.

Definition model_label (l : option string) : Prop :=
  l = None \/ l = Some "Model predictions".

(** What the second figure may contain: bands and lines in the model's
    colour, drawn over the temperature grid. *)
Definition figure2_call (grid : Series) (p : @PltCall V) : Prop :=
  match p with
  | subplots g => g = None
  | fill_between x _ _ c _ l => x = grid /\ c = model_color /\ model_label l
  | plot x _ f c _ l =>
      x = grid /\ f = None /\ c = model_color /\ model_label l
  | xlabel _ | ylabel _ | xlim _ _ | ylim_bottom _ | legend | show => True
  | subplot _ _ _ | errorbar _ _ _ _ _ _ => False
  end.

Definition label_is (text : string) (l : option string) : bool :=
  match l with Some s => String.eqb s text | None => false end.

(** The "Test data" curve is [plt.plot(grid, eval, color='black', ...)]
    with the label ["Test data"] on its first occurrence: a black line
    given without a format string, or anything carrying that label. *)
Definition draws_test_data (ev : @Event V) : bool :=
  match ev with
  | Ev c _ =>
      match c with
      | plt (plot _ _ f color _ l) =>
          (match f with None => String.eqb color "black" | Some _ => false end)
          || label_is "Test data" l
      | plt (errorbar _ _ _ _ _ l) => label_is "Test data" l
      | plt (fill_between _ _ _ _ _ l) => label_is "Test data" l
      | _ => false
      end
  end.

(** Observed exactly when the event draws that curve. *)
Definition test_data_drawn (ev : @Event V) : option unit :=
  if draws_test_data ev then Some tt else None.

(** ** Fixed sequences of observations *)

(** The observations [l] of an execution follow [L]: all of [L] when the
    notebook ran to its end, an initial segment of it when it died. *)
Definition follows {A X} (L : list X) (l : list X) (o : Outcome A) : Prop :=
  match o with
  | Done _ => l = L
  | Raised _ => prefix l L
  end.

(** The flow of the specification, step by step: three files read, one
    upload, two inspections of datasets, one training request, two
    inspections of emulators, one prediction request, 100 drawing calls
    (78 for the first figure, 22 for the second), two deletions. *)
Definition flow : list nat :=
  [1; 1; 1; 2; 3; 3; 4; 5; 5; 6] ++ repeat 7 100 ++ [8; 8].

Fixpoint nondecreasing (l : list nat) : bool :=
  match l with
  | a :: (b :: _) as rest => (a <=? b) && nondecreasing rest
  | _ => true
  end.

Definition all_remote_ops : list RemoteOp :=
  [OpUpload; OpListDatasets; OpSummariseDataset; OpTrain;
   OpListEmulators; OpSummariseEmulator; OpPredict;
   OpDeleteEmulator; OpDeleteDataset].

(** ** Lifecycles *)

(** What happens to a dataset, by identifier. *)
Inductive DatasetOp :=
| DsUpload (id : string)
| DsList
| DsSummarise (id : string)
| DsReferenced (id : string)       (* named by a training request *)
| DsDelete (id : string).

Definition dataset_op (ev : @Event V) : option DatasetOp :=
  match ev with
  | Ev c _ =>
      match c with
      | Dataset_upload d _ => Some (DsUpload (dataset_handle_id d))
      | tl_list_datasets => Some DsList
      | Dataset_summarise d => Some (DsSummarise (dataset_handle_id d))
      | Emulator_train _ d _ _ _ => Some (DsReferenced (dataset_handle_id d))
      | Dataset_delete d => Some (DsDelete (dataset_handle_id d))
      | _ => None
      end
  end.

Definition dataset_lifecycle : list DatasetOp :=
  [DsUpload dataset_id; DsList; DsSummarise dataset_id;
   DsReferenced dataset_id; DsDelete dataset_id].

(** What happens to an emulator, by identifier. *)
Inductive EmulatorOp :=
| EmTrain (id dataset : string)
| EmList
| EmSummarise (id : string)
| EmPredict (id : string)
| EmDelete (id : string).

Definition emulator_op (ev : @Event V) : option EmulatorOp :=
  match ev with
  | Ev c _ =>
      match c with
      | Emulator_train e d _ _ _ =>
          Some (EmTrain (emulator_handle_id e) (dataset_handle_id d))
      | tl_list_emulators => Some EmList
      | Emulator_summarise e => Some (EmSummarise (emulator_handle_id e))
      | Emulator_predict e _ => Some (EmPredict (emulator_handle_id e))
      | Emulator_delete e => Some (EmDelete (emulator_handle_id e))
      | _ => None
      end
  end.

Definition emulator_lifecycle : list EmulatorOp :=
  [EmTrain emulator_id dataset_id; EmList; EmSummarise emulator_id;
   EmPredict emulator_id; EmDelete emulator_id].

(** ** Tables and declared columns *)

(** Where tables come from and where they go: a file read that gave a
    table, a table handed to the service, the columns named by a training
    request. *)
Inductive DataUse :=
| CsvRead (path : string) (header : bool) (df : @DataFrame V)
| Sent (op : RemoteOp) (df : @DataFrame V)
| TrainRequest (dataset : string) (ins outs : list string).

Definition data_use (ev : @Event V) : option DataUse :=
  match ev with
  | Ev c r =>
      match c in Call T return Exc + T -> option DataUse with
      | pd_read_csv path header =>
          fun r => match r with
                   | inr df => Some (CsvRead path header df)
                   | inl _ => None
                   end
      | Dataset_upload _ df => fun _ => Some (Sent OpUpload df)
      | Emulator_predict _ df => fun _ => Some (Sent OpPredict df)
      | Emulator_train _ d ins outs _ =>
          fun _ => Some (TrainRequest (dataset_handle_id d) ins outs)
      | _ => fun _ => None
      end r
  end.

(** The data flow of a complete run, given the three tables read. *)
Definition data_flow (os : Platform) (df dfe dfg : @DataFrame V)
  : list DataUse :=
  [CsvRead (file_train os) true df;
   CsvRead (file_eval os) true dfe;
   CsvRead (file_grid os) false dfg;
   Sent OpUpload (iloc_head 1000 df);
   TrainRequest dataset_id inputs (outputs dfg);
   Sent OpPredict dfe].

(** The claim that, when training is requested, the declared columns are
    columns of the uploaded table. *)
Definition declared_columns_uploaded (l : list DataUse) : Prop :=
  forall id ins outs up,
    In (TrainRequest id ins outs) l -> In (Sent OpUpload up) l ->
    Forall (fun c => In (Name c) (columns up)) (ins ++ outs).

Definition empty_table : @DataFrame V := {| columns := []; rows := [] |}.

(** ** What becomes of the predicted tables *)




(** ** The temperature grid *)

Inductive GridUse :=
| GridRead (df_grid : @DataFrame V)       (* read with [header=None] *)
| OutputsDeclared (outs : list string)    (* by a training request *)
| CurveOver (x : @Series V).              (* a line or band drawn over [x] *)

Definition grid_use (ev : @Event V) : option GridUse :=
  match ev with
  | Ev c r =>
      match c in Call T return Exc + T -> option GridUse with
      | pd_read_csv _ false =>
          fun r => match r with
                   | inr df => Some (GridRead df)
                   | inl _ => None
                   end
      | Emulator_train _ _ _ outs _ => fun _ => Some (OutputsDeclared outs)
      | plt (plot x _ None _ _ _) => fun _ => Some (CurveOver x)
      | plt (fill_between x _ _ _ _ _) => fun _ => Some (CurveOver x)
      | _ => fun _ => None
      end r
  end.

Definition agrees_with_grid (df_grid : @DataFrame V) (u : GridUse) : Prop :=
  match u with
  | GridRead _ => False
  | OutputsDeclared outs =>
      outs = map (fun i => ("y" ++ str_of_nat i)%string)
                 (seq 0 (len df_grid))
      /\ List.length outs = len df_grid
  | CurveOver x => List.length x = len df_grid
  end.

(** The first thing observed is the grid being read; everything after
    agrees with it. *)
Definition grid_consistent (l : list GridUse) : Prop :=
  match l with
  | [] => True
  | GridRead df_grid :: rest => Forall (agrees_with_grid df_grid) rest
  | _ :: _ => False
  end.

End Observations.
(* ================================================================== *)
(** * A concrete environment

    Used to run the notebook on examples: numbers are exact rationals
    with [None] for NaN; the CSV files, the predicted tables and the step
    at which a call fails (if any) are given by a [World]. *)

Definition lift2 (f : Q -> Q -> Q) (a b : option Q) : option Q :=
  match a, b with Some x, Some y => Some (f x y) | _, _ => None end.

Definition fold_opt (f : Q -> Q -> Q) (l : list (option Q)) : option Q :=
  match l with
  | [] => None
  | x :: rest => fold_left (lift2 f) rest x
  end.

#[export] Instance exact_number : Number (option Q) := {
  of_Q := Some;
  nan := None;
  vadd := lift2 Qplus;
  vsub := lift2 Qminus;
  vmul := lift2 Qmult;
  vdiv := lift2 Qdiv;
  vmin := fold_opt Qmin;
  vmax := fold_opt Qmax
}.

Record World := {
  train_csv : @DataFrame (option Q);
  eval_csv : @DataFrame (option Q);
  grid_csv : @DataFrame (option Q);
  predicted : @DataFrame (option Q) * @DataFrame (option Q);
  fails_at : option nat         (* the index of the call that raises *)
}.

Definition answer (os : Platform) (w : World) (T : Type) (c : Call T) : T :=
  match c in Call T return T with
  | pd_read_csv path header =>
      if String.eqb path (file_train os) then train_csv w
      else if String.eqb path (file_grid os) then grid_csv w
      else eval_csv w
  | display _ => tt
  | Dataset_upload _ _ => tt
  | tl_list_datasets => [dataset_id]
  | Dataset_summarise _ => "dataset"
  | datetime_now => 0%Z
  | Emulator_train _ _ _ _ _ => tt
  | print_format _ _ => tt
  | tl_list_emulators => [emulator_id]
  | Emulator_summarise _ => "emulator"
  | Emulator_predict _ _ => predicted w
  | plt _ => tt
  | tl_get_blur_alpha _ a => a
  | tl_get_blur_boundaries _ => []
  | Emulator_delete _ => tt
  | Dataset_delete _ => tt
  end.

Definition world_handler (os : Platform) (w : World) : Handler :=
  fun T t c =>
    match fails_at w with
    | Some k => if List.length t =? k
                then inl (LibraryError "call failed")
                else inr (answer os w c)
    | None => inr (answer os w c)
    end.

(** A small well-formed data set: one grid point, five evaluation rows. *)
Definition table (names : list string) (nrows : nat) : @DataFrame (option Q) :=
  {| columns := map Name names;
     rows := repeat (map (fun _ => Some 1%Q) names) nrows |}.

Definition demo_columns : list string :=
  ["E1"; "E2"; "E3"; "n1"; "n2"; "y0"; "y100"; "y150"].

Definition demo_grid : @DataFrame (option Q) :=
  {| columns := [Pos 0]; rows := [[Some 300%Q]] |}.

Definition demo_world : World :=
  {| train_csv := table demo_columns 3;
     eval_csv := table demo_columns 5;
     grid_csv := demo_grid;
     predicted := (table ["y0"; "y100"; "y150"] 5,
                   table ["y0"; "y100"; "y150"] 5);
     fails_at := None |}.

Definition failing_world (k : nat) : World :=
  {| train_csv := train_csv demo_world;
     eval_csv := eval_csv demo_world;
     grid_csv := grid_csv demo_world;
     predicted := predicted demo_world;
     fails_at := Some k |}.


(** A training CSV with more than 1000 data rows. *)
Definition long_world : World :=
  {| train_csv := table demo_columns 1001;
     eval_csv := eval_csv demo_world;
     grid_csv := grid_csv demo_world;
     predicted := predicted demo_world;
     fails_at := None |}.

(** A training CSV that has none of the declared columns. *)
Definition columnless_world : World :=
  {| train_csv := table ["a"] 2;
     eval_csv := eval_csv demo_world;
     grid_csv := grid_csv demo_world;
     predicted := predicted demo_world;
     fails_at := None |}.

Definition data_uses_in (w : World) : list (@DataUse (option Q)) :=
  omap data_use (fst (execute Posix (world_handler Posix w))).

(* ================================================================== *)
(** * Further observations *)

Section MoreObservations.

Context {V : Type} {num : Number V}.

(** ** Clean-up *)

(** A deletion that was attempted, and whether it went through. *)
Inductive Cleanup :=
| EmulatorDeletion (ok : bool)
| DatasetDeletion (ok : bool).

Definition cleanup (ev : @Event V) : option Cleanup :=
  let ok := negb (failed ev) in
  match ev with
  | Ev c _ =>
      match c with
      | Emulator_delete _ => Some (EmulatorDeletion ok)
      | Dataset_delete _ => Some (DatasetDeletion ok)
      | _ => None
      end
  end.

(** The deletions are the last two cells: both go through when the
    notebook completes; when it dies, the dataset is still on the service,
    and so is the emulator unless it was the dataset's deletion that
    raised. *)
Definition cleanup_outcome {A} (l : list Cleanup) (o : Outcome A) : Prop :=
  match o with
  | Done _ => l = [EmulatorDeletion true; DatasetDeletion true]
  | Raised _ =>
      l = [] \/ l = [EmulatorDeletion false]
      \/ l = [EmulatorDeletion true; DatasetDeletion false]
  end.

(** ** Timing of the training *)




(** ** The blur helpers *)

Definition blur_call (ev : @Event V) : option unit :=
  match ev with
  | Ev c _ =>
      match c with
      | tl_get_blur_alpha _ _ => Some tt
      | tl_get_blur_boundaries _ => Some tt
      | _ => None
      end
  end.

(** ** What is drawn, without the numbers *)

Inductive Drawing :=
| DSubplots (grid : option (nat * nat))
| DSubplot (nrow ncol index : nat)
| DErrorbar (color : string) (label : option string)
| DPlot (fmt : option string) (color : string) (label : option string)
| DBand (color : string) (label : option string)
| DXlabel (s : string)
| DYlabel (s : string)
| DXlim
| DYlim
| DLegend
| DShow.

Definition drawing_of (p : @PltCall V) : Drawing :=
  match p with
  | subplots g => DSubplots g
  | subplot r c i => DSubplot r c i
  | errorbar _ _ _ c _ l => DErrorbar c l
  | plot _ _ f c _ l => DPlot f c l
  | fill_between _ _ _ c _ l => DBand c l
  | xlabel s => DXlabel s
  | ylabel s => DYlabel s
  | xlim _ _ => DXlim
  | ylim_bottom _ => DYlim
  | legend => DLegend
  | show => DShow
  end.

Definition drawing (ev : @Event V) : option Drawing :=
  match ev with
  | Ev c _ => match c with plt p => Some (drawing_of p) | _ => None end
  end.

(** One panel of the first figure: the model with error bars, the
    training scatter, the axis labels, and a legend in panel 1 only. *)
Definition panel (k : nat) (x_label y_label : string) : list Drawing :=
  [DSubplot 3 5 k;
   DErrorbar "blue" (Some "Model");
   DPlot (Some ".") "black" (Some "Training data");
   DXlabel x_label;
   DYlabel y_label]
  ++ (if k =? 1 then [DLegend] else []).

(** The panels run through the outputs [y0, y100, y150] row by row and
    through the five inputs within a row. *)
Definition figure1_drawings : list Drawing :=
  [DSubplots (Some (3, 5))]
  ++ List.concat (map (fun '(k, (y_label, x_label)) => panel k x_label y_label)
                 (combine (seq 1 15)
                          (list_prod (map snd ys) (map snd xs))))
  ++ [DShow].

(** One example of the second figure: the one- and two-sigma bands, then
    the mean; the only legend entry is on the first band of the first
    example. *)
Definition example_curves (example : nat) : list Drawing :=
  [DBand "blue" (if example =? 0 then Some "Model predictions" else None);
   DBand "blue" None;
   DPlot None "blue" None].

Definition figure2_drawings : list Drawing :=
  [DSubplots None]
  ++ List.concat (map example_curves (seq 0 5))
  ++ [DXlabel "Temperature [K]"; DXlim;
      DYlabel "Desorption rate [$10^{18}$ $m^{-2}$ $s^{-1}$]";
      DYlim; DLegend; DShow].

(** ** What the tables must hold for the notebook to complete *)

Definition has_columns (df : @DataFrame V) (names : list string) : Prop :=
  Forall (fun c => In (Name c) (columns df)) names.

(** The first figure indexes the evaluation table by the inputs, the
    training table by the inputs and by [y0, y100, y150], and the
    predicted tables by [y0, y100, y150]; the second takes column 0 of
    the grid and rows 0 to 4 of the declared outputs of both predicted
    tables. *)
Definition can_complete (df_train df_eval df_grid df_mean df_std
                         : @DataFrame V) : Prop :=
  has_columns df_eval (map fst xs)
  /\ has_columns df_train (map fst xs ++ map fst ys)
  /\ has_columns df_mean (map fst ys ++ outputs df_grid)
  /\ has_columns df_std (map fst ys ++ outputs df_grid)
  /\ number_of_model_examples <= len df_mean
  /\ number_of_model_examples <= len df_std
  /\ 1 <= List.length (columns df_grid).

(** What was loaded: the tables read from files and the tables predicted
    for an input. *)
Inductive Loaded :=
| FromCsv (path : string) (header : bool) (df : @DataFrame V)
| FromPredict (input mean std : @DataFrame V).

Definition loaded (ev : @Event V) : option Loaded :=
  match ev with
  | Ev c r =>
      match c in Call T return Exc + T -> option Loaded with
      | pd_read_csv path header =>
          fun r => match r with
                   | inr df => Some (FromCsv path header df)
                   | inl _ => None
                   end
      | Emulator_predict _ input =>
          fun r => match r with
                   | inr (mean, std) => Some (FromPredict input mean std)
                   | inl _ => None
                   end
      | _ => fun _ => None
      end r
  end.

Definition completed_with {A} (os : Platform) (l : list Loaded)
  (o : Outcome A) : Prop :=
  match o with
  | Raised _ => True
  | Done _ =>
      exists df df_eval df_grid df_mean df_std,
        l = [FromCsv (file_train os) true df;
             FromCsv (file_eval os) true df_eval;
             FromCsv (file_grid os) false df_grid;
             FromPredict df_eval df_mean df_std]
        /\ can_complete (iloc_head 1000 df) df_eval df_grid df_mean df_std
  end.

(** ** An environment in which nothing raises *)

(** The outcome of a program when every call is answered by [ans]. *)
Fixpoint eval {A} (ans : forall T, @Call V T -> T) (p : Prog A)
  : Outcome A :=
  match p with
  | Ret a => Done a
  | Raise e => Raised e
  | Do c k => eval ans (k (ans _ c))
  end.

Definition quiet (ans : forall T, @Call V T -> T) : @Handler V :=
  fun T _ c => inr (ans T c).

End MoreObservations.

(** Predictions for three inputs only. *)
Definition short_world : World :=
  {| train_csv := train_csv demo_world;
     eval_csv := table demo_columns 3;
     grid_csv := grid_csv demo_world;
     predicted := (table ["y0"; "y100"; "y150"] 3,
                   table ["y0"; "y100"; "y150"] 3);
     fails_at := None |}.
(* ================================================================== *)
(** * General facts *)

Section Properties.

Context {V : Type} {num : Number V}.

Lemma omap_app {X Y} (f : X -> option Y) (l m : list X) :
  omap f (l ++ m) = omap f l ++ omap f m.
Proof.
  induction l as [|x l IH]; cbn; [reflexivity|].
  destruct (f x); cbn; now rewrite IH.
Qed.

Lemma prefix_refl {X} (l : list X) : prefix l l.
Proof. exists []. now rewrite app_nil_r. Qed.

(** ** Programs *)

Lemma emits_bind {A B} (P : @Event V -> Prop) (p : Prog A) (f : A -> Prog B) :
  emits P p -> (forall a, emits P (f a)) -> emits P (bind p f).
Proof.
  intros Hp Hf. induction p as [a|e|T c k IH]; cbn in *; auto.
  destruct Hp as [Hc Hk]. split; auto.
Qed.

Lemma emits_call {T} (P : @Event V -> Prop) (c : Call T) :
  (forall r, P (Ev c r)) -> emits P (call c).
Proof. intros H. cbn. split; auto. Qed.

Lemma emits_lift {A} (P : @Event V -> Prop) (x : Exc + A) : emits P (lift x).
Proof. destruct x; exact I. Qed.

Lemma emits_for_each {X S} (P : @Event V -> Prop) (xs : list X)
  (body : X -> S -> Prog S) (s : S) :
  (forall x s', In x xs -> emits P (body x s')) ->
  emits P (for_each xs body s).
Proof.
  revert s. induction xs as [|x xs IH]; intros s H; cbn; [exact I|].
  apply emits_bind.
  - apply H. now left.
  - intros s'. apply IH. intros y s'' Hy. apply H. now right.
Qed.

Lemma emits_weaken {A} (P P' : @Event V -> Prop) (p : Prog A) :
  (forall ev, P ev -> P' ev) -> emits P p -> emits P' p.
Proof.
  intros HP. induction p as [a|e|T c k IH]; cbn; auto.
  intros [Hc Hk]. split; auto.
Qed.

(** What [p] adds to the trace satisfies [P] event by event. *)
Lemma emits_sound {A} (P : @Event V -> Prop) (p : Prog A) :
  emits P p ->
  forall h t, exists es, fst (run h p t) = t ++ es /\ Forall P es.
Proof.
  induction p as [a|e|T c k IH]; cbn; intros Hp h t.
  - exists []. now rewrite app_nil_r.
  - exists []. now rewrite app_nil_r.
  - destruct Hp as [Hc Hk]. destruct (h T t c) as [e|r]; cbn.
    + exists [Ev c (inl e)]. split; [reflexivity|]. constructor; auto.
    + destruct (IH r (Hk r) h (t ++ [Ev c (inr r)])) as [es [E F]].
      exists (Ev c (inr r) :: es). split.
      * rewrite E, <- app_assoc. reflexivity.
      * constructor; auto.
Qed.

Lemma wpo_sound {A X} (obs : @Event V -> option X) (p : Prog A)
  (Q : list X -> Outcome A -> Prop) :
  forall t, wpo obs p Q (omap obs t) ->
  forall h, Q (omap obs (fst (run h p t))) (snd (run h p t)).
Proof.
  induction p as [a|e|T c k IH]; cbn; intros t H h; auto.
  destruct H as [He Hr]. destruct (h T t c) as [e|r]; cbn.
  - rewrite omap_app. apply He.
  - apply IH. rewrite omap_app. apply Hr.
Qed.

Lemma wpo_bind {A B X} (obs : @Event V -> option X) (p : Prog A)
  (f : A -> Prog B) (Q : list X -> Outcome B -> Prop) :
  forall l,
  wpo obs p (fun l' o => match o with
                         | Done a => wpo obs (f a) Q l'
                         | Raised e => Q l' (Raised e)
                         end) l ->
  wpo obs (bind p f) Q l.
Proof.
  induction p as [a|e|T c k IH]; cbn; intros l H; auto.
  destruct H as [He Hr]. split; auto.
Qed.

(** A sub-program whose calls all satisfy [P] adds the observations of
    events that satisfy [P]. *)
Lemma wpo_emits {A X} (obs : @Event V -> option X) (P : @Event V -> Prop)
  (p : Prog A) (Q : list X -> Outcome A -> Prop) :
  emits P p ->
  forall l,
  (forall es o, Forall P es -> Q (l ++ omap obs es) o) ->
  wpo obs p Q l.
Proof.
  induction p as [a|e|T c k IH]; cbn; intros Hp l HQ.
  - specialize (HQ [] (Done a) (Forall_nil _)). cbn in HQ.
    now rewrite app_nil_r in HQ.
  - specialize (HQ [] (Raised e) (Forall_nil _)). cbn in HQ.
    now rewrite app_nil_r in HQ.
  - destruct Hp as [Hc Hk]. split.
    + intros e. apply (HQ [Ev c (inl e)]). constructor; auto.
    + intros r. apply IH; auto.
      intros es o Hes.
      specialize (HQ (Ev c (inr r) :: es) o (Forall_cons _ (Hc (inr r)) Hes)).
      cbn [omap] in *. destruct (obs (Ev c (inr r))); cbn [app];
        rewrite <- app_assoc; exact HQ.
Qed.

Lemma omap_nil_inv {X Y} (f : X -> option Y) (l : list X) :
  omap f l = [] -> Forall (fun x => f x = None) l.
Proof.
  induction l as [|x l IH]; cbn; intros H; [constructor|].
  destruct (f x) eqn:E; [discriminate|]. constructor; auto.
Qed.

(** A sub-program none of whose calls is observed leaves the observations
    as they are. *)
Lemma wpo_emits_none {A X} (obs : @Event V -> option X) (p : Prog A)
  (Q : list X -> Outcome A -> Prop) :
  emits (fun ev => obs ev = None) p ->
  forall l, (forall o, Q l o) -> wpo obs p Q l.
Proof.
  induction p as [a|e|T c k IH]; cbn; intros Hp l HQ; auto.
  destruct Hp as [Hc Hk]. split.
  - intros e. rewrite (Hc (inl e)), app_nil_r. apply HQ.
  - intros r. rewrite (Hc (inr r)), app_nil_r. apply IH; auto.
Qed.

(** No program can catch an exception: once a call has raised, nothing
    more is called and the exception is the outcome. *)
Lemma run_stops_at_failure {A} (p : @Prog V A) (h : @Handler V) :
  forall t, Forall (fun ev => failed ev = false) t ->
  Forall (fun ev => failed ev = false) (removelast (fst (run h p t))) /\
  match snd (run h p t) with
  | Done _ => omap raised_by (fst (run h p t)) = []
  | Raised e =>
      omap raised_by (fst (run h p t)) = [e] \/
      omap raised_by (fst (run h p t)) = []
  end.
Proof.
  assert (N : forall t : @Trace V, Forall (fun ev => failed ev = false) t ->
              omap raised_by t = []).
  { induction 1 as [|[T c [e|r]] t Hx _ IH]; cbn in *;
      [reflexivity|discriminate|assumption]. }
  induction p as [a|e|T c k IH]; cbn; intros t Ht.
  - split; [|now apply N].
    clear N. induction Ht as [|x [|y t] Hx Ht' IH]; cbn; constructor; auto.
  - split; [|right; now apply N].
    clear N. induction Ht as [|x [|y t] Hx Ht' IH]; cbn; constructor; auto.
  - destruct (h T t c) as [e|r]; cbn.
    + split.
      * now rewrite removelast_last.
      * left. rewrite omap_app, (N t Ht). reflexivity.
    + apply IH. apply Forall_app. split; auto.
Qed.

End Properties.

(* ================================================================== *)
(** * The figures *)

Section Figures.

Context {V : Type} {num : Number V}.
Variable os : Platform.

(** The join puts a separator before ["test.csv"]; the concatenation in
    the guard does not. *)
Lemma test_data_guard_false : test_data_guard os = false.
Proof. destruct os; reflexivity. Qed.

Lemma emits_bind_lift {A B} (P : @Event V -> Prop) (x : Exc + A)
  (f : A -> Prog B) :
  (forall a, x = inr a -> emits P (f a)) -> emits P (bind (lift x) f).
Proof. destruct x as [e|a]; cbn; auto. Qed.

Lemma emits_if {A} (P : @Event V -> Prop) (b : bool) (p q : Prog A) :
  (b = true -> emits P p) -> (b = false -> emits P q) ->
  emits P (if b then p else q).
Proof. destruct b; auto. Qed.

Ltac emits_auto :=
  repeat first
    [ exact I
    | apply emits_lift
    | apply emits_bind_lift; intros ? ?
    | apply emits_bind; [|intros ?]
    | apply emits_call; intros ?; cbn
    | apply emits_for_each; intros [? ?] ? ?
    | apply emits_for_each; intros ? ? ?
    | apply emits_if; intros ? ].

Lemma figure1_emits (df_train df_eval df_mean df_std : DataFrame) :
  emits (plt_event figure1_call)
        (cell_plot_examples df_train df_eval df_mean df_std).
Proof.
  unfold cell_plot_examples.
  emits_auto; auto.
Qed.

Lemma figure2_emits (df_train df_eval df_grid df_mean df_std : DataFrame) :
  emits (plt_event (figure2_call (column_at 0 df_grid)))
        (cell_plot_results os df_train df_eval df_grid df_mean df_std).
Proof.
  unfold cell_plot_results, output_row.
  rewrite test_data_guard_false.
  apply emits_bind_lift. intros grid Hgrid.
  assert (grid = column_at 0 df_grid) as ->.
  { unfold iloc_col in Hgrid.
    destruct (0 <? List.length (columns df_grid)); congruence. }
  emits_auto; repeat split; first [now left | now right].
Qed.

End Figures.

(* ================================================================== *)
(** * The notebook *)

Section Flow.

Context {V : Type} {num : Number V}.
Variable os : Platform.

(** Calls of the figures are not observed by [obs]. *)
Ltac plt_unobserved :=
  let ev := fresh "ev" in
  let H := fresh "H" in
  intros ev H; destruct ev as [? [] ?];
  unfold test_data_drawn; cbn in *; unfold model_label in *;
  try contradiction; try reflexivity;
  match goal with
  | p : PltCall |- _ =>
      destruct p; cbn in *; unfold model_label in *;
      try contradiction; try reflexivity;
      intuition (subst; reflexivity)
  end.

(** Symbolic execution of the notebook, cell by cell; the figures are
    taken whole, through [figure1_emits] and [figure2_emits]. *)
Ltac skip_figure lem :=
  apply wpo_bind; apply wpo_emits_none;
  [ eapply emits_weaken; [|apply lem]; plt_unobserved
  | let a := fresh "a" in let e := fresh "e" in intros [a|e] ].

Ltac follows_leaf :=
  cbv [follows]; first [reflexivity | eexists; reflexivity].

Ltac symex leaf :=
  unfold notebook;
  repeat
    (cbn -[cell_plot_examples cell_plot_results iloc_head outputs follows
           file_train file_eval file_grid inputs params];
     lazymatch goal with
     | |- _ /\ _ => split
     | |- forall _ : (_ * _)%type, _ => intros [? ?]
     | |- forall _, _ => intro
     | |- wpo _ (bind (cell_plot_examples _ _ _ _) _) _ _ =>
         skip_figure figure1_emits
     | |- wpo _ (bind (cell_plot_results _ _ _ _ _ _) _) _ _ =>
         skip_figure (figure2_emits os)
     | |- _ => leaf
     end).

Lemma remote_ops_follow :
  wpo (V:=V) remote_op (notebook os) (follows all_remote_ops) [].
Proof. symex follows_leaf. Qed.

Lemma dataset_ops_follow :
  wpo (V:=V) dataset_op (notebook os) (follows dataset_lifecycle) [].
Proof. symex follows_leaf. Qed.

Lemma emulator_ops_follow :
  wpo (V:=V) emulator_op (notebook os) (follows emulator_lifecycle) [].
Proof. symex follows_leaf. Qed.

(** The same, entering the figures call by call. *)
Ltac symex_deep leaf :=
  unfold notebook;
  repeat
    (cbn -[cell_plot_examples cell_plot_results iloc_head outputs follows
           getitem getitems iloc_row iloc_col flow test_data_guard
           Z.pow of_Z of_Q Z.of_nat
           file_train file_eval file_grid inputs params];
     lazymatch goal with
     | |- _ /\ _ => split
     | |- forall _ : (_ * _)%type, _ => intros [? ?]
     | |- forall _, _ => intro
     | |- wpo _ (bind (cell_plot_examples _ _ _ _) _) _ _ =>
         unfold cell_plot_examples
     | |- wpo _ (bind (cell_plot_results _ _ _ _ _ _) _) _ _ =>
         unfold cell_plot_results, output_row;
         rewrite test_data_guard_false
     | |- context [lift ?x] => destruct x
     | |- _ => leaf
     end).

Lemma phases_follow :
  wpo (V:=V) phase (notebook os) (follows flow) [].
Proof. symex_deep follows_leaf. Qed.

Ltac data_flow_leaf :=
  solve [ unshelve (do 3 eexists; cbv [follows data_flow];
                    first [reflexivity | eexists; reflexivity]);
          exact empty_table ].

Lemma data_flow_followed :
  wpo (V:=V) data_use (notebook os)
      (fun l o => exists df dfe dfg, follows (data_flow os df dfe dfg) l o)
      [].
Proof. symex data_flow_leaf. Qed.



Lemma no_test_data_drawn :
  wpo (V:=V) test_data_drawn (notebook os) (fun l _ => l = []) [].
Proof. symex ltac:(reflexivity). Qed.

Lemma outputs_agree (df_grid : @DataFrame V) :
  agrees_with_grid df_grid (OutputsDeclared (outputs df_grid)).
Proof.
  cbn. split; [reflexivity|].
  unfold outputs, range. now rewrite length_map, length_seq.
Qed.

Lemma curves_agree (df_grid : @DataFrame V) (es : list Event) :
  Forall (plt_event (figure2_call (column_at 0 df_grid))) es ->
  Forall (agrees_with_grid df_grid) (omap grid_use es).
Proof.
  induction 1 as [|ev es Hev _ IH]; cbn; [constructor|].
  destruct ev as [T c r]. destruct c; cbn in *; try contradiction.
  destruct p; cbn in *; try contradiction; auto.
  - destruct Hev as [-> [-> _]]. constructor; auto.
    cbn. unfold column_at, len. now rewrite length_map.
  - destruct Hev as [-> _]. constructor; auto.
    cbn. unfold column_at, len. now rewrite length_map.
Qed.

Ltac grid_leaf :=
  cbv [grid_consistent]; rewrite ?app_nil_r;
  solve [ exact I
        | repeat first [ apply Forall_nil
                       | apply Forall_cons; [apply outputs_agree|]
                       | apply curves_agree; assumption ] ].

Ltac symex_grid :=
  unfold notebook;
  repeat
    (cbn -[cell_plot_examples cell_plot_results iloc_head outputs
           file_train file_eval file_grid inputs params grid_consistent];
     lazymatch goal with
     | |- _ /\ _ => split
     | |- forall _ : (_ * _)%type, _ => intros [? ?]
     | |- forall _, _ => intro
     | |- wpo _ (bind (cell_plot_examples _ _ _ _) _) _ _ =>
         skip_figure figure1_emits
     | |- wpo _ (bind (cell_plot_results _ _ _ ?g _ _) _) _ _ =>
         apply wpo_bind;
         eapply wpo_emits; [apply (figure2_emits os _ _ g _ _)|];
         let es := fresh "es" in let H := fresh "Hes" in
         intros es [?|?] H
     | |- grid_consistent _ => grid_leaf
     end).

Lemma grid_uses_consistent :
  wpo (V:=V) grid_use (notebook os) (fun l _ => grid_consistent l) [].
Proof. symex_grid. Qed.

End Flow.

(* ================================================================== *)
(** * The claims *)

Section Claims.

Context {V : Type} {num : Number V}.

Lemma execute_wpo {X} (os : Platform) (obs : @Event V -> option X)
  (Q : list X -> Outcome unit -> Prop) :
  wpo obs (notebook os) Q [] ->
  forall h, Q (omap obs (fst (execute os h))) (snd (execute os h)).
Proof. intros H h. apply (wpo_sound obs (notebook os) Q [] H h). Qed.

Lemma follows_prefix {A X} (L l : list X) (o : Outcome A) :
  follows L l o -> prefix l L.
Proof. destruct o; cbn; [intros ->; apply prefix_refl | auto]. Qed.

Lemma nondecreasing_prefix (l r : list nat) :
  nondecreasing (l ++ r) = true -> nondecreasing l = true.
Proof.
  induction l as [|a [|b l] IH]; cbn; auto.
  intros H. apply andb_prop in H as [H1 H2]. rewrite H1. cbn. auto.
Qed.

Lemma NoDup_prefix {X} (l L : list X) : prefix l L -> NoDup L -> NoDup l.
Proof. intros [r ->]. apply NoDup_app_remove_r. Qed.

Lemma all_remote_ops_NoDup : NoDup all_remote_ops.
Proof.
  unfold all_remote_ops.
  repeat (constructor; [cbn; intuition discriminate|]). constructor.
Qed.

(** C3: in every execution the steps of the flow are taken in the order
    1 (load CSV files), 2 (upload), 3 (list and summarise datasets),
    4 (train), 5 (list and summarise emulators), 6 (predict), 7 (draw),
    8 (delete emulator, then dataset).  The sequence of steps is the fixed
    sequence [flow] when the notebook completes and an initial segment of
    it when a call or an indexing raises; so it never decreases. *)
Theorem flow_order_respected (os : Platform) (h : @Handler V) :
  follows flow (omap phase (fst (execute os h))) (snd (execute os h))
  /\ nondecreasing (omap phase (fst (execute os h))) = true.
Proof.
  pose proof (execute_wpo (phases_follow os) h) as F.
  split; [exact F|].
  destruct (follows_prefix _ _ _ F) as [rest E].
  apply (nondecreasing_prefix _ rest). now rewrite <- E.
Qed.

(** C4: no call is retried and no failure is handled.  Each of the nine
    calls to the service is made at most once, in the order of
    [all_remote_ops], and exactly once when the notebook completes; a call
    that raised is the last call of the execution, and its exception is
    the outcome of the notebook (an outcome [Raised e] with no failed call
    is an exception of the notebook's own indexing). *)
Theorem remote_calls_once_failures_propagate (os : Platform)
  (h : @Handler V) :
  follows all_remote_ops (omap remote_op (fst (execute os h)))
          (snd (execute os h))
  /\ NoDup (omap remote_op (fst (execute os h)))
  /\ Forall (fun ev => failed ev = false) (removelast (fst (execute os h)))
  /\ match snd (execute os h) with
     | Done _ => omap raised_by (fst (execute os h)) = []
     | Raised e => omap raised_by (fst (execute os h)) = [e]
                   \/ omap raised_by (fst (execute os h)) = []
     end.
Proof.
  pose proof (execute_wpo (remote_ops_follow os) h) as F.
  split; [exact F|]. split.
  - eapply NoDup_prefix; [eapply follows_prefix; exact F|].
    apply all_remote_ops_NoDup.
  - unfold execute.
    exact (run_stops_at_failure (notebook os) h (Forall_nil _)).
Qed.

(** C5: what happens to the dataset is, in this order: it is uploaded,
    listed, summarised, named by the training request, and deleted; all of
    it when the notebook completes, an initial segment otherwise.  Upload
    is the first operation and the only one that creates it; delete is
    the last and the only one that destroys it. *)
Theorem dataset_lifecycle_followed (os : Platform) (h : @Handler V) :
  follows dataset_lifecycle (omap dataset_op (fst (execute os h)))
          (snd (execute os h)).
Proof. exact (execute_wpo (dataset_ops_follow os) h). Qed.

(** C6: what happens to the emulator is, in this order: it is trained
    against the dataset, listed, summarised, asked for a prediction, and
    deleted; all of it when the notebook completes, an initial segment
    otherwise. *)
Theorem emulator_lifecycle_followed (os : Platform) (h : @Handler V) :
  follows emulator_lifecycle (omap emulator_op (fst (execute os h)))
          (snd (execute os h)).
Proof. exact (execute_wpo (emulator_ops_follow os) h). Qed.


(** C8: the guard of the "Test data" curve is false on either platform,
    because the joined path has a separator the concatenation lacks; no
    execution draws the curve. *)
Theorem test_data_never_drawn (os : Platform) (h : @Handler V) :
  test_data_guard os = false
  /\ file_eval os <> (emulator_dir os ++ "test.csv")%string
  /\ Forall (fun ev => draws_test_data ev = false) (fst (execute os h)).
Proof.
  split; [apply test_data_guard_false|]. split.
  - destruct os; discriminate.
  - pose proof (execute_wpo (no_test_data_drawn os) h)
      as F.
    cbn beta in F. apply omap_nil_inv in F.
    eapply Forall_impl; [|exact F].
    intros ev. unfold test_data_drawn.
    destruct (draws_test_data ev); [discriminate|reflexivity].
Qed.

(** C10: the outputs named by the training request are ["y0"] ...
    ["y{N-1}"], [N] being the number of rows of the table read with
    [header=None]; there are [N] of them, and every line and band of the
    second figure is drawn over [N] grid points. *)
Theorem outputs_one_per_grid_row (os : Platform) (h : @Handler V) :
  grid_consistent (omap grid_use (fst (execute os h))).
Proof.
  exact (execute_wpo (grid_uses_consistent os) h).
Qed.

Lemma prefix_firstn {X} (l L : list X) :
  prefix l L -> l = firstn (List.length l) L.
Proof.
  intros [r ->]. rewrite firstn_app, Nat.sub_diag, firstn_all. cbn.
  now rewrite app_nil_r.
Qed.

Lemma data_uses (os : Platform) (h : @Handler V) :
  exists df dfe dfg n,
    omap data_use (fst (execute os h))
    = firstn n (data_flow os df dfe dfg).
Proof.
  destruct (execute_wpo (data_flow_followed os) h) as (df & dfe & dfg & F).
  exists df, dfe, dfg. eexists.
  apply prefix_firstn. eapply follows_prefix. exact F.
Qed.

Lemma firstn_six {X} (n : nat) (a b c d e f : X) :
  let L := [a; b; c; d; e; f] in
  firstn n L = [] \/ firstn n L = [a] \/ firstn n L = [a; b]
  \/ firstn n L = [a; b; c] \/ firstn n L = [a; b; c; d]
  \/ firstn n L = [a; b; c; d; e] \/ firstn n L = L.
Proof.
  cbv zeta. do 6 (destruct n as [|n]; [cbn; tauto|]).
  cbn. rewrite firstn_nil. tauto.
Qed.

(** All the initial segments of the data flow, one goal each. *)
Ltac data_flow_cases os h :=
  let df := fresh "df" in let dfe := fresh "dfe" in
  let dfg := fresh "dfg" in let n := fresh "n" in
  let E := fresh "E" in let C := fresh "C" in
  destruct (data_uses os h) as (df & dfe & dfg & n & E);
  rewrite E; clear E; unfold data_flow;
  match goal with
  | |- context [firstn n [?a; ?b; ?c; ?d; ?e; ?f]] =>
      destruct (firstn_six n a b c d e f) as [C|[C|[C|[C|[C|[C|C]]]]]];
      rewrite C; clear C
  end.

(** C2, as amended: when the training request is issued, the inputs it
    declares are [E1, E2, E3, n1, n2], the outputs are [y0 .. y{N-1}]
    for the [N] rows of the grid table, and the table uploaded under the
    dataset it names has exactly the columns of the table read from the
    training CSV.  So a declared column is a column of the uploaded table
    whenever it is a column of the training CSV; the notebook does not
    check that it is. *)
Theorem declared_columns_follow_training_csv (os : Platform)
  (h : @Handler V) (id : string) (ins outs : list string)
  (up : @DataFrame V) :
  In (TrainRequest id ins outs) (omap data_use (fst (execute os h))) ->
  In (Sent OpUpload up) (omap data_use (fst (execute os h))) ->
  exists df dfg,
    In (CsvRead (file_train os) true df)
       (omap data_use (fst (execute os h)))
    /\ In (CsvRead (file_grid os) false dfg)
          (omap data_use (fst (execute os h)))
    /\ id = dataset_id /\ ins = inputs /\ outs = outputs dfg
    /\ up = iloc_head 1000 df
    /\ columns up = columns df
    /\ (Forall (fun c => In (Name c) (columns df)) (ins ++ outs) ->
        Forall (fun c => In (Name c) (columns up)) (ins ++ outs)).
Proof.
  data_flow_cases os h; cbn [In]; intros Ht Hu;
    try (exfalso; intuition discriminate).
  all: destruct Ht as [Ht|[Ht|[Ht|[Ht|[Ht|Ht]]]]];
         try discriminate; try (exfalso; intuition discriminate).
  all: destruct Hu as [Hu|[Hu|[Hu|[Hu|Hu]]]];
         try discriminate; try (exfalso; intuition discriminate).
  all: injection Ht as <- <- <-; injection Hu as <-.
  all: exists df, dfg; cbn; intuition auto.
Qed.

(** C9: the only tables handed to the service are the one uploaded and
    the one predictions are asked for.  The uploaded one is
    [iloc[:1000, :]] of the table read from the training CSV: the same
    columns, the first 1000 rows, hence exactly 1000 rows when the CSV has
    more; rows beyond the first 1000 are in no table sent.  The other is
    the table read from the evaluation CSV. *)
Theorem uploaded_table_is_first_1000_rows (os : Platform) (h : @Handler V)
  (op : RemoteOp) (tb : @DataFrame V) :
  In (Sent op tb) (omap data_use (fst (execute os h))) ->
  (op = OpUpload /\
   exists df,
     In (CsvRead (file_train os) true df)
        (omap data_use (fst (execute os h)))
     /\ tb = iloc_head 1000 df
     /\ columns tb = columns df
     /\ rows tb = firstn 1000 (rows df)
     /\ len tb = Nat.min 1000 (len df)
     /\ (1000 < len df -> len tb = 1000))
  \/
  (op = OpPredict /\
   In (CsvRead (file_eval os) true tb) (omap data_use (fst (execute os h)))).
Proof.
  assert (L : forall df : @DataFrame V,
             len (iloc_head 1000 df) = Nat.min 1000 (len df)).
  { intros df. unfold len, iloc_head. cbn [rows]. apply length_firstn. }
  data_flow_cases os h; cbn [In]; intros Hs;
    try (exfalso; intuition discriminate).
  all: destruct Hs as [Hs|[Hs|[Hs|[Hs|Hs]]]];
         try discriminate; try (exfalso; intuition discriminate).
  all: try (destruct Hs as [Hs|[Hs|Hs]];
            try discriminate; try (exfalso; intuition discriminate)).
  all: injection Hs as <- <-.
  all: try (left; split; [reflexivity|]; exists df;
            repeat split; auto; rewrite L; lia).
  right; split; [reflexivity|]; cbn; auto.
Qed.

End Claims.

(* ================================================================== *)
(** * Runs in the concrete environment *)

(** With well-formed data the notebook runs to its end and takes every
    step of the flow. *)
Example demo_run_completes :
  snd (execute Posix (world_handler Posix demo_world)) = Done tt
  /\ omap phase (fst (execute Posix (world_handler Posix demo_world))) = flow
  /\ omap remote_op (fst (execute Nt (world_handler Nt demo_world)))
     = all_remote_ops.
Proof. vm_compute. repeat split. Qed.

(** When the training request (the ninth call) fails, nothing follows. *)
Example failed_training_stops_the_run :
  let r := execute Posix (world_handler Posix (failing_world 8)) in
  snd r = Raised (LibraryError "call failed")
  /\ omap remote_op (fst r)
     = [OpUpload; OpListDatasets; OpSummariseDataset; OpTrain]
  /\ omap raised_by (fst r) = [LibraryError "call failed"]
  /\ omap dataset_op (fst r)
     = [DsUpload dataset_id; DsList; DsSummarise dataset_id;
        DsReferenced dataset_id].
Proof. vm_compute. repeat split. Qed.

(** The notebook's own indexing can raise: with a training CSV that lacks
    column [E1], the first figure dies on [df_train["E1"]], after the
    training and the prediction were requested; nothing is deleted. *)
Example missing_column_raises_in_first_figure :
  let r := execute Posix (world_handler Posix columnless_world) in
  snd r = Raised (KeyError (Name "E1"))
  /\ omap raised_by (fst r) = []
  /\ omap remote_op (fst r)
     = [OpUpload; OpListDatasets; OpSummariseDataset; OpTrain;
        OpListEmulators; OpSummariseEmulator; OpPredict].
Proof. vm_compute. repeat split. Qed.

(** C2 as stated fails: with a training CSV whose only column is [a], the
    training request is issued all the same, declaring [E1] (and the
    other inputs and [y0]), none of which is a column of the table that
    was uploaded. *)
Lemma declared_columns_not_always_uploaded :
  ~ declared_columns_uploaded (data_uses_in columnless_world).
Proof.
  intros H.
  specialize (H dataset_id inputs ["y0"] (table ["a"] 2)).
  assert (T : In (TrainRequest dataset_id inputs ["y0"])
                 (data_uses_in columnless_world)).
  { vm_compute. tauto. }
  assert (U : In (Sent OpUpload (table ["a"] 2))
                 (data_uses_in columnless_world)).
  { vm_compute. tauto. }
  specialize (H T U). inversion H as [|c cs Hc _]; subst.
  cbn in Hc. destruct Hc as [Hc|[]]. discriminate.
Qed.

(** The amended C2 at the well-formed data set: the hypotheses hold, and
    there every declared column is a column of the uploaded table. *)
Lemma declared_columns_witness :
  In (TrainRequest dataset_id inputs ["y0"]) (data_uses_in demo_world)
  /\ In (Sent OpUpload (table demo_columns 3)) (data_uses_in demo_world)
  /\ Forall (fun c => In (Name c) (columns (table demo_columns 3)))
            (inputs ++ ["y0"]).
Proof.
  assert (T : In (TrainRequest dataset_id inputs ["y0"])
                 (data_uses_in demo_world)).
  { vm_compute. tauto. }
  assert (U : In (Sent OpUpload (table demo_columns 3))
                 (data_uses_in demo_world)).
  { vm_compute. tauto. }
  split; [exact T|]. split; [exact U|].
  destruct (declared_columns_follow_training_csv Posix
              (world_handler Posix demo_world) _ _ _ _ T U)
    as (df & dfg & _ & _ & _ & _ & _ & _ & Hcols & Himpl).
  apply Himpl. rewrite <- Hcols. clear.
  repeat (apply Forall_cons; [cbn; tauto|]). apply Forall_nil.
Defined.

(** C9 at a training CSV of 1001 rows: the hypothesis holds for the
    table of 1000 rows, the table read has more than 1000 rows, and the
    theorem gives that exactly 1000 were uploaded. *)
Lemma uploaded_table_witness :
  In (Sent OpUpload (table demo_columns 1000)) (data_uses_in long_world)
  /\ 1000 < len (train_csv long_world)
  /\ len (table demo_columns 1000) = 1000.
Proof.
  assert (U : In (Sent OpUpload (table demo_columns 1000))
                 (data_uses_in long_world)).
  { vm_compute. tauto. }
  assert (N : 1000 < len (train_csv long_world)).
  { apply Nat.ltb_lt. vm_compute. reflexivity. }
  split; [exact U|]. split; [exact N|].
  destruct (uploaded_table_is_first_1000_rows Posix
              (world_handler Posix long_world) _ _ U)
    as [[_ (df & Hin & _ & _ & _ & _ & Hlen)]|[E _]];
    [|discriminate E].
  apply Hlen.
  assert (E : df = train_csv long_world).
  { clear - Hin. vm_compute in Hin. vm_compute.
    destruct Hin as [H|[H|[H|[H|[H|[H|[]]]]]]]; try discriminate H.
    now injection H as <-. }
  rewrite E. exact N.
Defined.

(* ================================================================== *)
(** * Paths and column names *)

Lemma length_append (s t : string) :
  String.length (s ++ t) = String.length s + String.length t.
Proof. induction s as [|c s IH]; cbn; [reflexivity|now rewrite IH]. Qed.

Lemma append_cancel_l (s t u : string) : (s ++ t = s ++ u)%string -> t = u.
Proof. induction s as [|c s IH]; cbn; [auto|]. intros H. injection H. auto. Qed.

(** X1: on POSIX, [os.path.join(d, f)] and [d + f] agree exactly when
    [d] is empty or already ends with the separator ([f] being a relative
    name).  So the comparison in the guard of the "Test data" curve can
    only succeed for a directory written with a trailing separator. *)
Theorem join_is_concatenation_iff (d f : string) :
  starts_with_any (seps Posix) f = false ->
  os_path_join Posix d [f] = (d ++ f)%string
  <-> (d = "" \/ ends_with_any (seps Posix) d = true).
Proof.
  intros Hf. unfold os_path_join. cbn [fold_left]. unfold join_step.
  rewrite Hf.
  destruct (String.eqb_spec d "") as [->|Hd]; cbn [orb].
  - split; auto.
  - destruct (ends_with_any (seps Posix) d); cbn [orb].
    + split; auto.
    + split.
      * intros H. apply append_cancel_l in H.
        apply (f_equal String.length) in H. rewrite length_append in H.
        cbn in H. lia.
      * intros [H|H]; [contradiction|discriminate].
Qed.

Lemma join_is_concatenation_witness :
  starts_with_any (seps Posix) "test.csv" = false
  /\ (os_path_join Posix "campaigns/" ["test.csv"] = "campaigns/test.csv").
Proof.
  split; [reflexivity|].
  apply (join_is_concatenation_iff "campaigns/" "test.csv");
    [reflexivity|right; reflexivity].
Defined.

Lemma str_of_nat_inj (n m : nat) : str_of_nat n = str_of_nat m -> n = m.
Proof.
  unfold str_of_nat. intros H.
  apply (f_equal NilEmpty.uint_of_string) in H.
  rewrite !NilEmpty.usu in H. injection H as H.
  now apply DecimalNat.Unsigned.to_uint_inj.
Qed.

Section Columns.

Context {V : Type} {num : Number V}.

(** X2: the declared outputs: [y{i}] is declared exactly when [i] is below
    the number of rows of the grid table, and no name is declared
    twice. *)
Theorem outputs_are_the_grid_indices (df_grid : @DataFrame V) :
  (forall i, In ("y" ++ str_of_nat i)%string (outputs df_grid)
             <-> i < len df_grid)
  /\ NoDup (outputs df_grid).
Proof.
  unfold outputs, range. split.
  - intros i. rewrite in_map_iff. split.
    + intros (j & E & Hj). injection E as E. apply str_of_nat_inj in E.
      subst. apply in_seq in Hj. lia.
    + intros Hi. exists i. split; [reflexivity|]. apply in_seq. lia.
  - apply Injective_map_NoDup; [|apply seq_NoDup].
    intros i j E. injection E as E. now apply str_of_nat_inj.
Qed.

(** X3: the first figure plots the outputs [y0], [y100] and [y150]
    whatever the grid; they are among the declared outputs exactly when
    the grid has more than 150 rows. *)
Theorem first_figure_outputs_declared_iff (df_grid : @DataFrame V) :
  Forall (fun y => In y (outputs df_grid)) (map fst ys)
  <-> 150 < len df_grid.
Proof.
  destruct (outputs_are_the_grid_indices df_grid) as [M _].
  change (map fst ys)
    with (map (fun i => ("y" ++ str_of_nat i)%string) [0; 100; 150]).
  rewrite Forall_map. split.
  - intros H. inversion H as [|? ? _ H1]; subst.
    inversion H1 as [|? ? _ H2]; subst.
    inversion H2 as [|? ? H3 _]; subst. now apply M.
  - intros H. repeat constructor; apply M; lia.
Qed.

End Columns.

(* ================================================================== *)
(** * Indexing tables *)

Section Indexing.

Context {V : Type} {num : Number V}.

Lemma get_loc_Some (l : Label) (cols : list Label) (i : nat) :
  get_loc l cols = Some i -> In l cols.
Proof.
  revert i. induction cols as [|c cs IH]; cbn; intros i; [discriminate|].
  destruct (label_eqb c l) eqn:E.
  - intros _. left. destruct c, l; cbn in E; try discriminate.
    + apply String.eqb_eq in E. now subst.
    + apply Nat.eqb_eq in E. now subst.
  - destruct (get_loc l cs); cbn; [|discriminate]. intros _. right. eauto.
Qed.

Lemma get_loc_In (l : Label) (cols : list Label) :
  In l cols -> exists i, get_loc l cols = Some i.
Proof.
  induction cols as [|c cs IH]; cbn; [contradiction|].
  intros H. destruct (label_eqb c l) eqn:E; [eauto|].
  destruct H as [->|H].
  - destruct l; cbn in E;
      [rewrite String.eqb_refl in E|rewrite Nat.eqb_refl in E];
      discriminate.
  - destruct (IH H) as [i ->]. cbn. eauto.
Qed.

Lemma getitem_inr (df : @DataFrame V) (l : Label) (s : Series) :
  getitem df l = inr s -> In l (columns df).
Proof.
  unfold getitem. destruct (get_loc l (columns df)) eqn:E; [|discriminate].
  intros _. eapply get_loc_Some; eauto.
Qed.

Lemma getitem_In (df : @DataFrame V) (l : Label) :
  In l (columns df) -> exists s, getitem df l = inr s.
Proof.
  intros H. unfold getitem. destruct (get_loc_In _ _ H) as [i ->]. eauto.
Qed.

Lemma locate_inr (cols names : list Label) (js : list nat) :
  locate cols names = inr js -> Forall (fun l => In l cols) names.
Proof.
  revert js. induction names as [|l ls IH]; cbn; intros js; [constructor|].
  destruct (get_loc l cols) eqn:E; [|discriminate].
  destruct (locate cols ls); [discriminate|]. intros _.
  constructor; [eapply get_loc_Some|]; eauto.
Qed.

Lemma locate_Forall (cols names : list Label) :
  Forall (fun l => In l cols) names -> exists js, locate cols names = inr js.
Proof.
  induction 1 as [|l ls Hl _ [js IH]]; cbn; [eauto|].
  destruct (get_loc_In _ _ Hl) as [i ->]. rewrite IH. eauto.
Qed.

Lemma getitems_inr (df d : @DataFrame V) (names : list Label) :
  getitems df names = inr d ->
  Forall (fun l => In l (columns df)) names /\ len d = len df.
Proof.
  unfold getitems. destruct (locate (columns df) names) eqn:E; [discriminate|].
  intros H. injection H as <-. split; [eapply locate_inr; eauto|].
  unfold len. cbn. apply length_map.
Qed.

Lemma getitems_Forall (df : @DataFrame V) (names : list Label) :
  Forall (fun l => In l (columns df)) names ->
  exists d, getitems df names = inr d /\ len d = len df.
Proof.
  intros H. unfold getitems. destruct (@locate_Forall _ _ H) as [js ->].
  eexists. split; [reflexivity|]. unfold len. cbn. apply length_map.
Qed.

Lemma iloc_row_inr (df : @DataFrame V) (i : nat) (s : Series) :
  iloc_row df i = inr s -> i < len df.
Proof.
  unfold iloc_row, len. destruct (nth_error (rows df) i) eqn:E; [|discriminate].
  intros _. apply nth_error_Some. congruence.
Qed.

Lemma iloc_row_lt (df : @DataFrame V) (i : nat) :
  i < len df -> exists s, iloc_row df i = inr s.
Proof.
  unfold iloc_row, len. intros H. apply nth_error_Some in H.
  destruct (nth_error (rows df) i); [eauto|contradiction].
Qed.

Lemma iloc_col_inr (df : @DataFrame V) (j : nat) (s : Series) :
  iloc_col df j = inr s -> j < List.length (columns df).
Proof.
  unfold iloc_col. destruct (j <? List.length (columns df)) eqn:E;
    [|discriminate]. intros _. now apply Nat.ltb_lt.
Qed.

Lemma iloc_col_lt (df : @DataFrame V) (j : nat) :
  j < List.length (columns df) -> exists s, iloc_col df j = inr s.
Proof.
  intros H. unfold iloc_col. apply Nat.ltb_lt in H. rewrite H. eauto.
Qed.

Lemma has_columns_In (df : @DataFrame V) (names : list string) (c : string) :
  has_columns df names -> In c names -> In (Name c) (columns df).
Proof. unfold has_columns. rewrite Forall_forall. auto. Qed.

Lemma has_columns_of_names (df : @DataFrame V) (names : list string) :
  Forall (fun l => In l (columns df)) (map Name names) ->
  has_columns df names.
Proof. unfold has_columns. now rewrite Forall_map. Qed.

End Indexing.

(* ================================================================== *)
(** * More about every execution *)

Section MoreFlow.

Context {V : Type} {num : Number V}.
Variable os : Platform.

Ltac figure_unobserved :=
  let ev := fresh "ev" in
  let H := fresh "H" in
  intros ev H; destruct ev as [? [] ?]; cbn in *;
  solve [contradiction | reflexivity].

Ltac pass_figure lem :=
  apply wpo_bind; apply wpo_emits_none;
  [ eapply emits_weaken; [|apply lem]; figure_unobserved
  | let a := fresh "a" in let e := fresh "e" in intros [a|e] ].

(** Cell by cell, the figures taken whole. *)
Ltac walk leaf :=
  unfold notebook;
  repeat
    (cbn -[cell_plot_examples cell_plot_results iloc_head outputs
           file_train file_eval file_grid inputs params Z.sub];
     lazymatch goal with
     | |- _ /\ _ => split
     | |- forall _ : (_ * _)%type, _ => intros [? ?]
     | |- forall _, _ => intro
     | |- wpo _ (bind (cell_plot_examples _ _ _ _) _) _ _ =>
         pass_figure figure1_emits
     | |- wpo _ (bind (cell_plot_results _ _ _ _ _ _) _) _ _ =>
         pass_figure (figure2_emits os)
     | |- _ => leaf
     end).

Lemma cleanup_walk :
  wpo (V:=V) cleanup (notebook os) cleanup_outcome [].
Proof. walk ltac:(cbv [cleanup_outcome]; tauto). Qed.



Lemma blur_walk :
  wpo (V:=V) blur_call (notebook os) (fun l _ => l = []) [].
Proof. walk ltac:(reflexivity). Qed.

(** Call by call, through the figures. *)
Ltac walk_deep leaf :=
  unfold notebook;
  repeat
    (cbn -[cell_plot_examples cell_plot_results iloc_head outputs follows
           getitem getitems iloc_row iloc_col test_data_guard
           figure1_drawings figure2_drawings completed_with
           Z.pow of_Z of_Q Z.of_nat Z.sub
           file_train file_eval file_grid inputs params];
     lazymatch goal with
     | |- _ /\ _ => split
     | |- forall _ : (_ * _)%type, _ => intros [? ?]
     | |- forall _, _ => intro
     | |- wpo _ (bind (cell_plot_examples _ _ _ _) _) _ _ =>
         unfold cell_plot_examples
     | |- wpo _ (bind (cell_plot_results _ _ _ _ _ _) _) _ _ =>
         unfold cell_plot_results, output_row;
         rewrite test_data_guard_false
     | |- context [lift ?x] => destruct x
     | |- _ => leaf
     end).

(** The same, keeping what each indexing returned. *)
Ltac walk_deep_eqn leaf :=
  unfold notebook;
  repeat
    (cbn -[cell_plot_examples cell_plot_results iloc_head outputs follows
           getitem getitems iloc_row iloc_col test_data_guard
           figure1_drawings figure2_drawings completed_with
           Z.pow of_Z of_Q Z.of_nat Z.sub
           file_train file_eval file_grid inputs params];
     lazymatch goal with
     | |- _ /\ _ => split
     | |- forall _ : (_ * _)%type, _ => intros [? ?]
     | |- forall _, _ => intro
     | |- wpo _ (bind (cell_plot_examples _ _ _ _) _) _ _ =>
         unfold cell_plot_examples
     | |- wpo _ (bind (cell_plot_results _ _ _ _ _ _) _) _ _ =>
         unfold cell_plot_results, output_row;
         rewrite test_data_guard_false
     | |- context [lift ?x] => destruct x eqn:?
     | |- _ => leaf
     end).

Ltac declared_columns d :=
  lazymatch goal with
  | H : getitems d (map Name ?outs) = inr _ |- _ =>
      apply has_columns_of_names; exact (proj1 (getitems_inr _ _ H))
  end.

Ltac five_rows d :=
  lazymatch goal with
  | H : getitems d _ = inr ?sub, R : iloc_row ?sub 4 = inr _ |- _ =>
      rewrite <- (proj2 (getitems_inr _ _ H)); eapply iloc_row_inr; exact R
  end.

Ltac completion_fact :=
  lazymatch goal with
  | |- Forall _ _ =>
      repeat (apply Forall_cons; [eapply getitem_inr; eassumption|]);
      first [ apply Forall_nil
            | lazymatch goal with
              | |- context [columns ?m] => declared_columns m
              end ]
  | |- _ <= len ?m => five_rows m
  | |- _ <= List.length (columns ?g) =>
      lazymatch goal with
      | H : iloc_col g 0 = inr _ |- _ => eapply iloc_col_inr; exact H
      end
  end.

Ltac completed_leaf :=
  idtac;
  lazymatch goal with
  | |- completed_with _ _ (Raised _) => exact I
  | |- completed_with _ _ (Done _) =>
      cbv [completed_with]; do 5 eexists; split; [reflexivity|];
      unfold can_complete, has_columns, number_of_model_examples;
      let names := eval vm_compute in (map fst ys) in
      change (map fst ys) with names;
      cbn [map fst xs app];
      repeat split; completion_fact
  end.

Lemma completed_walk :
  wpo (V:=V) loaded (notebook os) (completed_with os) [].
Proof. walk_deep_eqn completed_leaf. Qed.

(** Both lists are closed: compare them by evaluation. *)
Ltac drawings_leaf :=
  idtac;
  lazymatch goal with
  | |- follows ?L ?l (Raised _) =>
      change (exists rest, L = l ++ rest);
      exists (skipn (List.length l) L); vm_compute; reflexivity
  | |- follows ?L ?l (Done _) =>
      change (l = L); vm_compute; reflexivity
  end.

Lemma drawings_walk :
  wpo (V:=V) drawing (notebook os)
      (follows (figure1_drawings ++ figure2_drawings)) [].
Proof. walk_deep drawings_leaf. Qed.

Lemma run_quiet {A} (ans : forall T, @Call V T -> T) (p : Prog A) :
  forall t, snd (run (quiet ans) p t) = eval ans p.
Proof. induction p as [a|e|T c k IH]; cbn; intros t; auto. Qed.

Lemma eval_bind {A B} (ans : forall T, @Call V T -> T) (p : Prog A)
  (f : A -> Prog B) :
  eval ans (bind p f)
  = match eval ans p with
    | Done a => eval ans (f a)
    | Raised e => Raised e
    end.
Proof. induction p as [a|e|T c k IH]; cbn; auto. Qed.

(** Resolve the next indexing from what the tables are known to hold. *)
Ltac lookup :=
  lazymatch goal with
  | |- context [lift (getitem ?d (Name ?c))] =>
      let H := fresh "H" in
      destruct (@getitem_In _ _ d (Name c)) as [? H];
      [ eapply has_columns_In; [eassumption|vm_compute; tauto]
      | rewrite H ]
  | |- context [lift (iloc_row ?d ?k)] =>
      let H := fresh "H" in
      destruct (@iloc_row_lt _ d k) as [? H]; [lia|rewrite H]
  end.

Ltac evaluate :=
  repeat (cbn -[getitem getitems iloc_row iloc_col iloc_head outputs
                Z.pow of_Z of_Q Z.of_nat];
          try lookup).

Lemma eval_figure1 (ans : forall T, @Call V T -> T)
  (df_train df_eval df_mean df_std : @DataFrame V) :
  has_columns df_eval (map fst xs) ->
  has_columns df_train (map fst xs ++ map fst ys) ->
  has_columns df_mean (map fst ys) ->
  has_columns df_std (map fst ys) ->
  eval ans (cell_plot_examples df_train df_eval df_mean df_std) = Done tt.
Proof.
  intros Ce Ct Cm Cs. unfold cell_plot_examples.
  evaluate. now destruct (ans unit _).
Qed.

Lemma eval_figure2 (ans : forall T, @Call V T -> T)
  (df_train df_eval df_grid df_mean df_std : @DataFrame V) :
  has_columns df_mean (outputs df_grid) ->
  has_columns df_std (outputs df_grid) ->
  number_of_model_examples <= len df_mean ->
  number_of_model_examples <= len df_std ->
  1 <= List.length (columns df_grid) ->
  eval ans (cell_plot_results os df_train df_eval df_grid df_mean df_std)
  = Done tt.
Proof.
  intros Cm Cs Lm Ls Lg. unfold number_of_model_examples in *.
  destruct (@getitems_Forall _ _ df_mean (map Name (outputs df_grid)))
    as (m' & Em & Lm'); [now apply Forall_map|].
  destruct (@getitems_Forall _ _ df_std (map Name (outputs df_grid)))
    as (s' & Es & Ls'); [now apply Forall_map|].
  destruct (@iloc_col_lt _ _ df_grid 0 Lg) as (grid & Eg).
  unfold cell_plot_results, output_row.
  rewrite test_data_guard_false, Eg, Em, Es.
  evaluate. now destruct (ans unit _).
Qed.

Lemma eval_notebook (ans : forall T, @Call V T -> T)
  (df dfe dfg m s : @DataFrame V) :
  ans _ (pd_read_csv (file_train os) true) = df ->
  ans _ (pd_read_csv (file_eval os) true) = dfe ->
  ans _ (pd_read_csv (file_grid os) false) = dfg ->
  ans _ (Emulator_predict {| emulator_handle_id := emulator_id |} dfe)
  = (m, s) ->
  can_complete (iloc_head 1000 df) dfe dfg m s ->
  eval ans (notebook os) = Done tt.
Proof.
  intros Edf Edfe Edfg Epr (Ce & Ct & Cm & Cs & Lm & Ls & Lg).
  apply Forall_app in Cm as [Cm1 Cm2]. apply Forall_app in Cs as [Cs1 Cs2].
  unfold notebook.
  cbn -[cell_plot_examples cell_plot_results iloc_head outputs
        file_train file_eval file_grid inputs params Z.sub].
  rewrite Edf, Edfe, Edfg.
  cbn -[cell_plot_examples cell_plot_results iloc_head outputs
        file_train file_eval file_grid inputs params Z.sub].
  rewrite Epr.
  cbn -[cell_plot_examples cell_plot_results iloc_head outputs
        file_train file_eval file_grid inputs params Z.sub].
  rewrite eval_bind, eval_figure1 by assumption.
  rewrite eval_bind, eval_figure2 by assumption.
  cbn. now destruct (ans unit _).
Qed.

Lemma iloc_row_inl (df : @DataFrame V) (i : nat) (e : Exc) :
  iloc_row df i = inl e -> e = IndexError.
Proof.
  unfold iloc_row. destruct (nth_error (rows df) i); congruence.
Qed.

Lemma eval_figure2_short (ans : forall T, @Call V T -> T)
  (df_train df_eval df_grid df_mean df_std : @DataFrame V) :
  has_columns df_mean (outputs df_grid) ->
  has_columns df_std (outputs df_grid) ->
  1 <= List.length (columns df_grid) ->
  len df_mean < number_of_model_examples
  \/ len df_std < number_of_model_examples ->
  eval ans (cell_plot_results os df_train df_eval df_grid df_mean df_std)
  = Raised IndexError.
Proof.
  intros Cm Cs Lg Short. unfold number_of_model_examples in *.
  destruct (@getitems_Forall _ _ df_mean (map Name (outputs df_grid)))
    as (m' & Em & Lm'); [now apply Forall_map|].
  destruct (@getitems_Forall _ _ df_std (map Name (outputs df_grid)))
    as (s' & Es & Ls'); [now apply Forall_map|].
  destruct (@iloc_col_lt _ _ df_grid 0 Lg) as (grid & Eg).
  unfold cell_plot_results, output_row.
  rewrite test_data_guard_false, Eg, Em, Es.
  repeat (cbn -[getitem getitems iloc_row iloc_col iloc_head outputs
                Z.pow of_Z of_Q Z.of_nat];
          lazymatch goal with
          | |- context [lift (iloc_row ?d ?k)] =>
              let E := fresh "E" in
              destruct (iloc_row d k) as [?|?] eqn:E;
              [ apply iloc_row_inl in E; now subst
              | apply iloc_row_inr in E ]
          end).
  exfalso. lia.
Qed.

End MoreFlow.

Section MoreClaims.

Context {V : Type} {num : Number V}.

(** X4: the deletions are not protected: when the notebook completes, the
    emulator and then the dataset were deleted; when it dies anywhere (a
    failed call, a missing column, too few predicted rows), the dataset's
    deletion has not gone through, and the emulator's has only if it was
    the dataset's deletion that raised. *)
Theorem cleanup_only_when_nothing_raised (os : Platform) (h : @Handler V) :
  cleanup_outcome (omap cleanup (fst (execute os h))) (snd (execute os h)).
Proof. exact (execute_wpo (cleanup_walk os) h). Qed.


(** X6: with the flags as set ([plot_model_blur] false, [plot_model_bands]
    true), [tl.get_blur_alpha] and [tl.get_blur_boundaries] are called in
    no execution. *)
Theorem blur_helpers_never_called (os : Platform) (h : @Handler V) :
  Forall (fun ev => blur_call ev = None) (fst (execute os h)).
Proof.
  apply omap_nil_inv. exact (execute_wpo (blur_walk os) h).
Qed.

(** X7: whatever is drawn, it is drawn in the same order: fifteen panels
    (outputs [y0], [y100], [y150] row by row, the five inputs within a
    row), each with the model's error bars, the training scatter and its
    axis labels, a legend in the first panel only; then, for each of five
    examples, the two uncertainty bands and the mean line, of which only
    the first band of the first example carries a legend entry.  The data
    decide the numbers, never which calls are made. *)
Theorem drawing_sequence_is_fixed (os : Platform) (h : @Handler V) :
  follows (figure1_drawings ++ figure2_drawings)
          (omap drawing (fst (execute os h))) (snd (execute os h)).
Proof. exact (execute_wpo (drawings_walk os) h). Qed.

(** X8: the notebook can only complete on tables that fit its figures:
    then the three files were read and one prediction made, the
    evaluation table has the five inputs, the training table the inputs
    and [y0], [y100], [y150], both predicted tables have [y0], [y100],
    [y150] and every declared output and at least five rows, and the grid
    has a column. *)
Theorem completion_requires_fitting_tables (os : Platform) (h : @Handler V) :
  completed_with os (omap loaded (fst (execute os h))) (snd (execute os h)).
Proof. exact (execute_wpo (completed_walk os) h). Qed.

(** X9: conversely, when no call raises and the tables fit, the notebook
    runs to its end. *)
Theorem notebook_completes_on_fitting_tables (os : Platform)
  (ans : forall T, @Call V T -> T) (df dfe dfg m s : @DataFrame V) :
  ans _ (pd_read_csv (file_train os) true) = df ->
  ans _ (pd_read_csv (file_eval os) true) = dfe ->
  ans _ (pd_read_csv (file_grid os) false) = dfg ->
  ans _ (Emulator_predict {| emulator_handle_id := emulator_id |} dfe)
  = (m, s) ->
  can_complete (iloc_head 1000 df) dfe dfg m s ->
  snd (execute os (quiet ans)) = Done tt.
Proof.
  intros. unfold execute. rewrite run_quiet.
  eapply eval_notebook; eassumption.
Qed.

(** X10: the second figure always draws five examples.  When no call raises
    and the columns are there but a predicted table has fewer than five
    rows, the notebook dies with [IndexError] in the second figure. *)
Theorem fewer_than_five_predictions_raise (os : Platform)
  (ans : forall T, @Call V T -> T) (df dfe dfg m s : @DataFrame V) :
  ans _ (pd_read_csv (file_train os) true) = df ->
  ans _ (pd_read_csv (file_eval os) true) = dfe ->
  ans _ (pd_read_csv (file_grid os) false) = dfg ->
  ans _ (Emulator_predict {| emulator_handle_id := emulator_id |} dfe)
  = (m, s) ->
  has_columns dfe (map fst xs) ->
  has_columns (iloc_head 1000 df) (map fst xs ++ map fst ys) ->
  has_columns m (map fst ys ++ outputs dfg) ->
  has_columns s (map fst ys ++ outputs dfg) ->
  1 <= List.length (columns dfg) ->
  len m < number_of_model_examples \/ len s < number_of_model_examples ->
  snd (execute os (quiet ans)) = Raised IndexError.
Proof.
  intros Edf Edfe Edfg Epr Ce Ct Cm Cs Lg Short.
  apply Forall_app in Cm as [Cm1 Cm2]. apply Forall_app in Cs as [Cs1 Cs2].
  unfold execute. rewrite run_quiet. unfold notebook.
  cbn -[cell_plot_examples cell_plot_results iloc_head outputs
        file_train file_eval file_grid inputs params Z.sub].
  rewrite Edf, Edfe, Edfg.
  cbn -[cell_plot_examples cell_plot_results iloc_head outputs
        file_train file_eval file_grid inputs params Z.sub].
  rewrite Epr.
  cbn -[cell_plot_examples cell_plot_results iloc_head outputs
        file_train file_eval file_grid inputs params Z.sub].
  rewrite eval_bind, (eval_figure1 ans) by assumption.
  rewrite eval_bind, (eval_figure2_short os ans) by assumption.
  reflexivity.
Qed.

End MoreClaims.

(* ================================================================== *)
(** * More runs in the concrete environment *)

Lemma demo_tables_fit :
  can_complete (iloc_head 1000 (train_csv demo_world)) (eval_csv demo_world)
               (grid_csv demo_world) (fst (predicted demo_world))
               (snd (predicted demo_world)).
Proof.
  unfold can_complete, has_columns.
  repeat split; try (vm_compute; lia);
    vm_compute; repeat (apply Forall_cons; [tauto|]); apply Forall_nil.
Qed.

(** The well-formed data set fits, and the notebook completes on it. *)
Lemma notebook_completes_witness :
  can_complete (iloc_head 1000 (train_csv demo_world)) (eval_csv demo_world)
               (grid_csv demo_world) (fst (predicted demo_world))
               (snd (predicted demo_world))
  /\ snd (execute Posix (quiet (answer Posix demo_world))) = Done tt.
Proof.
  split; [exact demo_tables_fit|].
  apply (notebook_completes_on_fitting_tables Posix (answer Posix demo_world)
           (df:=train_csv demo_world) (dfe:=eval_csv demo_world)
           (dfg:=grid_csv demo_world)
           (m:=fst (predicted demo_world)) (s:=snd (predicted demo_world)));
    try reflexivity.
  exact demo_tables_fit.
Defined.

(** With predictions for three inputs, the notebook dies in the second
    figure. *)
Lemma fewer_than_five_predictions_witness :
  len (fst (predicted short_world)) < number_of_model_examples
  /\ snd (execute Posix (quiet (answer Posix short_world)))
     = Raised IndexError.
Proof.
  assert (L : len (fst (predicted short_world)) < number_of_model_examples).
  { apply Nat.ltb_lt. vm_compute. reflexivity. }
  split; [exact L|].
  apply (fewer_than_five_predictions_raise Posix (answer Posix short_world)
           (df:=train_csv short_world) (dfe:=eval_csv short_world)
           (dfg:=grid_csv short_world)
           (m:=fst (predicted short_world))
           (s:=snd (predicted short_world)));
    try reflexivity; try (left; exact L);
    try (vm_compute; lia);
    unfold has_columns; vm_compute;
    repeat (apply Forall_cons; [tauto|]); apply Forall_nil.
Defined.
